(** * A shallow embedding of the shop's route handlers (app/__init__.py)

    The handlers are embedded as computations in a small state-and-exception
    monad over a [World]: the relational store (committed rows and the
    SQLAlchemy session's unit of work), the login session, the flash queue
    and the clock.  Tables are lists of rows in insertion order, which is
    what [.first()], [.all()] and the relationship collections observe. *)

From Stdlib Require Import List ZArith Bool String Ascii Lia.
Import ListNotations.

Open Scope string_scope.
Open Scope Z_scope.

(** ** Rows (app.db_models)

    The handlers use these columns; the model classes themselves are
    imported from [app.db_models]. *)

Module User.
(** Modelled from the spec: the [User] row of app.db_models (identity,
    credential hash, confirmation flag, contact info), with the columns
    the handlers read and write. *)
Record t := mk {
  id : Z;
  name : string;
  email : string;
  password : string;
  phone : string;
  email_confirmed : bool
}.
End User.

Module Item.
(** Modelled from the spec: the [Item] row of app.db_models (name, price,
    external pricing reference).  Prices are exact integers. *)
Record t := mk {
  id : Z;
  name : string;
  price : Z;
  price_id : string
}.
End Item.

Module Cart.
(** Modelled from the spec: the [CartEntry] row of app.db_models, a
    (user, item, quantity) tuple with a primary key. *)
Record t := mk {
  id : Z;
  uid : Z;
  itemid : Z;
  quantity : Z
}.
End Cart.

Module Order.
(** Modelled from the spec: the [Order] row of app.db_models (owning
    user, creation timestamp, status). *)
Record t := mk {
  id : Z;
  uid : Z;
  date : Z;
  status : string
}.
End Order.

Module Ordered_item.
(** Modelled from the spec: the [OrderedItem] row of app.db_models
    (order reference, item reference, quantity). *)
Record t := mk {
  id : Z;
  oid : Z;
  itemid : Z;
  quantity : Z
}.
End Ordered_item.

(** ** The relational store *)

Module DB.
Record t := mk {
  users : list User.t;
  items : list Item.t;
  cart : list Cart.t;
  orders : list Order.t;
  ordered_items : list Ordered_item.t
}.

Definition empty : t := mk [] [] [] [] [].

(** The key an autoincrement primary key column hands out next. *)
Definition next_id (ids : list Z) : Z := 1 + fold_right Z.max 0 ids.

Definition with_users (f : list User.t -> list User.t) (d : t) : t :=
  mk (f (users d)) (items d) (cart d) (orders d) (ordered_items d).
Definition with_cart (f : list Cart.t -> list Cart.t) (d : t) : t :=
  mk (users d) (items d) (f (cart d)) (orders d) (ordered_items d).
Definition with_orders (f : list Order.t -> list Order.t) (d : t) : t :=
  mk (users d) (items d) (cart d) (f (orders d)) (ordered_items d).
Definition with_ordered_items
    (f : list Ordered_item.t -> list Ordered_item.t) (d : t) : t :=
  mk (users d) (items d) (cart d) (orders d) (f (ordered_items d)).

(** [Model.query.get(pk)] *)
Definition get_user (pk : Z) (d : t) : option User.t :=
  find (fun u => User.id u =? pk) (users d).
Definition get_item (pk : Z) (d : t) : option Item.t :=
  find (fun i => Item.id i =? pk) (items d).

(** [User.query.filter_by(email=e).first()] *)
Definition user_by_email (e : string) (d : t) : option User.t :=
  find (fun u => String.eqb (User.email u) e) (users d).

(** Modelled from the spec: the relationship collections [user.cart] and
    [user.orders] of app.db_models, the rows that belong to the user. *)
Definition cart_of (u : Z) (d : t) : list Cart.t :=
  filter (fun c => Cart.uid c =? u) (cart d).
Definition orders_of (u : Z) (d : t) : list Order.t :=
  filter (fun o => Order.uid o =? u) (orders d).

(** The line items of one order. *)
Definition items_of_order (o : Z) (d : t) : list Ordered_item.t :=
  filter (fun oi => Ordered_item.oid oi =? o) (ordered_items d).
End DB.

(** ** Exceptions, responses and the handler monad *)

Inductive exn :=
| TypeError (msg : string)
| AttributeError (msg : string)
| KeyError (msg : string)
| UnmappedInstanceError (msg : string)
| SQLAlchemyError (msg : string)
| BadSignature (msg : string)
| SignatureExpired (msg : string).

(** [str(e)] *)
Definition exn_str (e : exn) : string :=
  match e with
  | TypeError m | AttributeError m | KeyError m
  | UnmappedInstanceError m | SQLAlchemyError m
  | BadSignature m | SignatureExpired m => m
  end.

(** The values a handler passes to a template. *)
Inductive value :=
| VNum (z : Z)
| VBool (b : bool)
| VStr (s : string)
| VNums (l : list Z)
| VItems (l : list (option Item.t))
| VItemRows (l : list Item.t)
| VOrders (l : list Order.t)
| VPriceIds (l : list (string * Z))
| VForm.

Inductive response :=
| redirect (location : string)
| render_template (template : string) (context : list (string * value))
| abort (code : Z).

Record World := mkWorld {
  persisted : DB.t;              (* committed rows *)
  pending : DB.t;                (* the session's view: committed rows plus the unit of work *)
  session_uid : option Z;        (* the user id kept by flask-login *)
  flashed : list (string * string);  (* (message, category), oldest first *)
  clock : Z;                     (* seconds since the epoch *)
  fault : option nat             (* the store write that raises, counted from 0; None: the store never fails *)
}.

Definition set_pending (d : DB.t) (w : World) : World :=
  mkWorld (persisted w) d (session_uid w) (flashed w) (clock w) (fault w).
Definition set_persisted (d : DB.t) (w : World) : World :=
  mkWorld d (pending w) (session_uid w) (flashed w) (clock w) (fault w).
Definition set_session_uid (s : option Z) (w : World) : World :=
  mkWorld (persisted w) (pending w) s (flashed w) (clock w) (fault w).
Definition set_flashed (f : list (string * string)) (w : World) : World :=
  mkWorld (persisted w) (pending w) (session_uid w) f (clock w) (fault w).
Definition set_fault (f : option nat) (w : World) : World :=
  mkWorld (persisted w) (pending w) (session_uid w) (flashed w) (clock w) f.

(** A request starts with a fresh session on the committed rows. *)
Definition request_world (d : DB.t) (sess : option Z) (t : Z) (f : option nat) : World :=
  mkWorld d d sess [] t f.

Inductive outcome (A : Type) :=
| Return (a : A)
| Raise (e : exn).
Arguments Return {A} a.
Arguments Raise {A} e.

Definition M (A : Type) : Type := World -> outcome A * World.

Definition ret {A} (a : A) : M A := fun w => (Return a, w).
Definition raise {A} (e : exn) : M A := fun w => (Raise e, w).
Definition bind {A B} (m : M A) (k : A -> M B) : M B :=
  fun w => match m w with
           | (Return a, w') => k a w'
           | (Raise e, w') => (Raise e, w')
           end.
(** [try: body  except Exception as e: handler e] *)
Definition try_except {A} (body : M A) (handler : exn -> M A) : M A :=
  fun w => match body w with
           | (Return a, w') => (Return a, w')
           | (Raise e, w') => handler e w'
           end.

Declare Scope handler_scope.
Delimit Scope handler_scope with handler.
Notation "x <- m ;; k" := (bind m (fun x => k))
  (at level 100, m at next level, right associativity) : handler_scope.
Notation "m ;; k" := (bind m (fun _ => k))
  (at level 100, right associativity) : handler_scope.
Open Scope handler_scope.

Definition get_world : M World := fun w => (Return w, w).
Definition modify (f : World -> World) : M unit := fun w => (Return tt, f w).

(** [for x in l: body x] *)
Fixpoint for_each {A} (l : list A) (body : A -> M unit) : M unit :=
  match l with
  | [] => ret tt
  | x :: rest => body x ;; for_each rest body
  end.

(** ** The SQLAlchemy session *)

(** Every operation of the session that changes rows (add, delete, commit)
    is a point where the store may raise; [fault] says which one does. *)
Definition store_write : M unit :=
  fun w => match fault w with
           | Some O => (Raise (SQLAlchemyError "store failure"), set_fault None w)
           | Some (S k) => (Return tt, set_fault (Some k) w)
           | None => (Return tt, w)
           end.

Definition session_update (f : DB.t -> DB.t) : M unit :=
  store_write ;; modify (fun w => set_pending (f (pending w)) w).

(** [db.session.commit()] *)
Definition session_commit : M unit :=
  store_write ;; modify (fun w => set_persisted (pending w) w).

(** [db.session.rollback()] *)
Definition session_rollback : M unit :=
  modify (fun w => set_pending (persisted w) w).

(** [db.session.add(Order(uid, date, status))]; the row gets the key its
    table hands out at the flush, and the object carries it afterwards. *)
Definition session_add_order (uid date : Z) (status : string) : M Order.t :=
  w <- get_world ;;
  let o := Order.mk (DB.next_id (map Order.id (DB.orders (pending w)))) uid date status in
  session_update (DB.with_orders (fun l => (l ++ [o])%list)) ;;
  ret o.

(** [db.session.add(Ordered_item(oid, itemid, quantity))] *)
Definition session_add_ordered_item (oid itemid quantity : Z) : M unit :=
  w <- get_world ;;
  let r := Ordered_item.mk
             (DB.next_id (map Ordered_item.id (DB.ordered_items (pending w))))
             oid itemid quantity in
  session_update (DB.with_ordered_items (fun l => (l ++ [r])%list)).

(** Modelled from the spec: the default of the [email_confirmed] column of
    app.db_models; a registered account starts unconfirmed. *)
Definition email_confirmed_default : bool := false.

(** [db.session.add(User(name, email, password, phone))]; the confirmation
    flag takes the column default. *)
Definition session_add_user (name email password phone : string) : M unit :=
  w <- get_world ;;
  let u := User.mk (DB.next_id (map User.id (DB.users (pending w))))
                   name email password phone email_confirmed_default in
  session_update (DB.with_users (fun l => (l ++ [u])%list)).

(** [db.session.delete(cart_item)] *)
Definition session_delete_cart (c : Cart.t) : M unit :=
  session_update
    (DB.with_cart (filter (fun r => negb (Cart.id r =? Cart.id c)))).

(** [user.email_confirmed = True; db.session.add(user)]: the row with the
    object's key is rewritten. *)
Definition session_save_user (u : User.t) : M unit :=
  session_update
    (DB.with_users (map (fun r => if User.id r =? User.id u then u else r))).

(** ** Flask and flask-login *)

Definition flash (message category : string) : M unit :=
  modify (fun w => set_flashed (flashed w ++ [(message, category)])%list w).

(** The routes registered with [@app.route]. *)
Definition url_for (endpoint : string) : string :=
  if String.eqb endpoint "home" then "/"
  else "/" ++ endpoint.

(** [datetime.utcnow()] *)
Definition utcnow : M Z := fun w => (Return (clock w), w).

(** [load_user]: [User.query.get(user_id)] *)
Definition load_user (user_id : Z) (d : DB.t) : option User.t :=
  DB.get_user user_id d.

(** The user a login session resolves to, or None for the anonymous user. *)
Definition logged_in (sess : option Z) (d : DB.t) : option User.t :=
  match sess with
  | Some i => load_user i d
  | None => None
  end.

(** [current_user] *)
Definition current_user : M (option User.t) :=
  fun w => (Return (logged_in (session_uid w) (pending w)), w).

(** [current_user.is_authenticated] *)
Definition is_authenticated : M bool :=
  cu <- current_user ;;
  ret match cu with Some _ => true | None => false end.

Definition anonymous_has_no (attr : string) : exn :=
  AttributeError ("'AnonymousUserMixin' object has no attribute '" ++ attr ++ "'").
Definition none_has_no (attr : string) : exn :=
  AttributeError ("'NoneType' object has no attribute '" ++ attr ++ "'").

(** [current_user.id] *)
Definition current_user_id : M Z :=
  cu <- current_user ;;
  match cu with
  | Some u => ret (User.id u)
  | None => raise (anonymous_has_no "id")
  end.

(** [current_user.cart] *)
Definition current_user_cart : M (list Cart.t) :=
  cu <- current_user ;;
  match cu with
  | Some u => w <- get_world ;; ret (DB.cart_of (User.id u) (pending w))
  | None => raise (anonymous_has_no "cart")
  end.

(** [current_user.orders] *)
Definition current_user_orders : M (list Order.t) :=
  cu <- current_user ;;
  match cu with
  | Some u => w <- get_world ;; ret (DB.orders_of (User.id u) (pending w))
  | None => raise (anonymous_has_no "orders")
  end.

(** [login_user(user)] and [logout_user()] *)
Definition login_user (u : User.t) : M unit :=
  modify (set_session_uid (Some (User.id u))).

(** ** Python calls

    A function object: the keyword names its signature accepts, and its
    body.  [call] binds the keyword arguments first, as Python does. *)

Record pyfunc (A : Type) := mkfunc {
  func_name : string;
  accepts : string -> bool;
  body : list (string * value) -> M A
}.
Arguments mkfunc {A}.
Arguments func_name {A}.
Arguments accepts {A}.
Arguments body {A}.

Definition call {A} (f : pyfunc A) (kwargs : list (string * value)) : M A :=
  match find (fun kv => negb (accepts f (fst kv))) kwargs with
  | Some (k, _) =>
      raise (TypeError (func_name f ++ "() got an unexpected keyword argument '" ++ k ++ "'"))
  | None => body f kwargs
  end.

(** [@login_required]: the wrapper takes [*args, **kwargs], turns an
    anonymous caller away and otherwise calls the wrapped function with
    the arguments it was given. *)
Definition login_required (f : pyfunc response) : pyfunc response :=
  mkfunc (func_name f) (fun _ => true)
    (fun kwargs =>
       auth <- is_authenticated ;;
       if auth then call f kwargs else ret (abort 401)).

(** Running a handler on a world gives its outcome and the world it
    leaves; of that world the server keeps the committed rows and the login
    session, and drops what is left of the unit of work. *)
Definition run {A} (m : M A) (w : World) : outcome A * World := m w.

(** ** Requests and the collaborators outside this module *)

Inductive http_method := GET | POST.

(** The fields of [LoginForm] and [RegisterForm] the handlers read. *)
Record LoginForm := mkLoginForm {
  login_email : string;
  login_password : string
}.

Record RegisterForm := mkRegisterForm {
  register_name : string;
  register_email : string;
  register_password : string;
  register_phone : string
}.

(** The configuration, werkzeug's password hashing and the validators of
    app.forms.  [generate_password_hash password method salt_length salt]
    takes the salt it draws as its last argument. *)
Class Collaborators := {
  SECRET_KEY : string;
  generate_password_hash : string -> string -> Z -> string -> string;
  check_password_hash : string -> string -> bool;
  validate_login : LoginForm -> bool;
  validate_register : RegisterForm -> bool
}.

(** [form.validate_on_submit()]: the request is a submission and the
    form's validators pass. *)
Definition validate_on_submit (m : http_method) (valid : bool) : bool :=
  match m with
  | POST => valid
  | GET => false
  end.

(** ** itsdangerous: signed, timestamped tokens

    A token is either a string that does not parse or verify, or a payload
    signed under a secret key and a salt at some time. *)

Inductive token :=
| Malformed (raw : string)
| Signed (secret salt : string) (issued : Z) (payload : string).

(** [URLSafeTimedSerializer(secret).loads(token, salt=salt, max_age=max_age)]:
    the payload, or the exception that refuses the token. *)
Definition loads (secret : string) (tok : token) (salt : string) (max_age : Z)
  : M string :=
  now <- utcnow ;;
  match tok with
  | Malformed _ => raise (BadSignature "No separator found")
  | Signed k s issued payload =>
      if negb (String.eqb k secret && String.eqb s salt) then
        raise (BadSignature "Signature does not match")
      else
        let age := now - issued in
        if age >? max_age then raise (SignatureExpired "Signature age > max_age")
        else if age <? 0 then raise (SignatureExpired "Signature age < 0")
        else ret payload
  end.

(** ** SQL [LIKE]

    [name LIKE pattern] with no ESCAPE clause: [%] matches any run of
    characters, [_] matches any one character, every other character
    matches itself up to ASCII case. *)

Definition lower (c : ascii) : ascii :=
  let n := nat_of_ascii c in
  if (Nat.leb 65 n && Nat.leb n 90)%bool then ascii_of_nat (n + 32) else c.

Definition percent : ascii := "%"%char.
Definition underscore : ascii := "_"%char.

Fixpoint like_chars (p : list ascii) : list ascii -> bool :=
  match p with
  | [] => fun s => match s with [] => true | _ :: _ => false end
  | c :: p' =>
      if Ascii.eqb c percent then
        fix any (s : list ascii) : bool :=
          (like_chars p' s
           || match s with [] => false | _ :: s' => any s' end)%bool
      else
        fun s =>
          match s with
          | [] => false
          | d :: s' =>
              ((Ascii.eqb c underscore || Ascii.eqb (lower c) (lower d))
               && like_chars p' s')%bool
          end
  end.

(** [column.like(pattern)] on one row's value. *)
Definition like (value pattern : string) : bool :=
  like_chars (list_ascii_of_string pattern) (list_ascii_of_string value).

(** ** The handlers *)

Section Handlers.
Context `{Collaborators}.

(** [@app.route("/login", methods=['POST', 'GET'])] *)
Definition login (m : http_method) (form : LoginForm) : M response :=
  auth <- is_authenticated ;;
  if auth then ret (redirect (url_for "home"))
  else if validate_on_submit m (validate_login form) then
    let email := login_email form in
    w <- get_world ;;
    match DB.user_by_email email (pending w) with
    | None =>
        flash ("User with email " ++ email ++ " doesn't exist!<br> <a href="
               ++ url_for "register" ++ ">Register now!</a>") "error" ;;
        ret (redirect (url_for "login"))
    | Some user =>
        if check_password_hash (User.password user) (login_password form) then
          login_user user ;;
          ret (redirect (url_for "home"))
        else
          flash "Email and password incorrect!!" "error" ;;
          ret (redirect (url_for "login"))
    end
  else ret (render_template "login.html" [("form", VForm)]).

(** [@app.route("/register", methods=['POST', 'GET'])]; [salt] is the
    salt [generate_password_hash] draws for this request. *)
Definition register (m : http_method) (form : RegisterForm) (salt : string)
  : M response :=
  auth <- is_authenticated ;;
  if auth then ret (redirect (url_for "home"))
  else if validate_on_submit m (validate_register form) then
    w <- get_world ;;
    match DB.user_by_email (register_email form) (pending w) with
    | Some user =>
        flash ("User with email " ++ User.email user
               ++ " already exists!!<br> <a href=" ++ url_for "login"
               ++ ">Login now!</a>") "error" ;;
        ret (redirect (url_for "register"))
    | None =>
        session_add_user (register_name form) (register_email form)
          (generate_password_hash (register_password form) "pbkdf2:sha256" 8 salt)
          (register_phone form) ;;
        session_commit ;;
        flash "Thanks for registering! You may login now." "success" ;;
        ret (redirect (url_for "login"))
    end
  else ret (render_template "register.html" [("form", VForm)]).

(** [@app.route('/confirm/<token>')] *)
Definition confirm_email (tok : token) : M response :=
  decoded <- try_except
    (email <- loads SECRET_KEY tok "email-confirmation-salt" 3600 ;;
     ret (inr email))
    (fun _ =>
       flash "The confirmation link is invalid or has expired." "error" ;;
       ret (inl (redirect (url_for "login")))) ;;
  match decoded with
  | inl early => ret early
  | inr email =>
      w <- get_world ;;
      match DB.user_by_email email (pending w) with
      | None => raise (none_has_no "email_confirmed")
      | Some user =>
          (if User.email_confirmed user then
             flash "Account already confirmed. Please login." "success"
           else
             session_save_user
               (User.mk (User.id user) (User.name user) (User.email user)
                        (User.password user) (User.phone user) true) ;;
             session_commit ;;
             flash "Email address successfully confirmed!" "success") ;;
          ret (redirect (url_for "login"))
      end
  end.
End Handlers.

(** [@app.route('/orders')], below [@login_required]: the view takes no
    argument. *)
Definition orders_view : pyfunc response :=
  mkfunc "orders" (fun _ => false)
    (fun _ =>
       os <- current_user_orders ;;
       ret (render_template "orders.html" [("orders", VOrders os)])).

Definition orders : pyfunc response := login_required orders_view.

(** [db.session.add(obj)] for an object that is no mapped row. *)
Definition session_add_unmapped (r : response) : M unit :=
  raise (UnmappedInstanceError "Class is not mapped").

(** [@app.route("/checkout", methods=["GET", "POST"])] *)
Definition checkout_view (m : http_method) : pyfunc response :=
  mkfunc "checkout" (fun _ => false)
    (fun _ =>
       match m with
       | POST =>
           uid <- current_user_id ;;
           new_order <- call orders [("uid", VNum uid)] ;;
           session_add_unmapped new_order ;;
           session_commit ;;
           flash "Order placed successfully. Cash on Delivery selected." "success" ;;
           ret (redirect (url_for "orders"))
       | GET => ret (render_template "checkout.html" [])
       end).

Definition checkout (m : http_method) : M response :=
  call (login_required (checkout_view m)) [].

(** Modelled from the spec: the relationship [cart.item] of app.db_models,
    the row the entry's [itemid] refers to, or None. *)
Definition cart_item (c : Cart.t) (d : DB.t) : option Item.t :=
  DB.get_item (Cart.itemid c) d.

(** The local variables of [cart]. *)
Record cart_locals := mkLocals {
  price : Z;
  price_ids : list (string * Z);
  items : list (option Item.t);
  quantity : list Z
}.

(** One turn of the loop [for cart in current_user.cart]. *)
Definition cart_step (d : DB.t) (l : cart_locals) (c : Cart.t) : M cart_locals :=
  let items' := (items l ++ [cart_item c d])%list in
  let quantity' := (quantity l ++ [Cart.quantity c])%list in
  match cart_item c d with
  | None => raise (none_has_no "price_id")
  | Some it =>
      let price_ids' := (price_ids l ++ [(Item.price_id it, Cart.quantity c)])%list in
      ret (mkLocals (price l + Item.price it * Cart.quantity c)
                    price_ids' items' quantity')
  end.

Fixpoint cart_loop (d : DB.t) (rows : list Cart.t) (l : cart_locals) : M cart_locals :=
  match rows with
  | [] => ret l
  | c :: rest => l' <- cart_step d l c ;; cart_loop d rest l'
  end.

(** [@app.route("/cart")], below [@login_required] *)
Definition cart_view : pyfunc response :=
  mkfunc "cart" (fun _ => false)
    (fun _ =>
       rows <- current_user_cart ;;
       w <- get_world ;;
       l <- cart_loop (pending w) rows (mkLocals 0 [] [] []) ;;
       ret (render_template "cart.html"
              [("items", VItems (items l)); ("price", VNum (price l));
               ("price_ids", VPriceIds (price_ids l));
               ("quantity", VNums (quantity l))])).

Definition cart : M response := call (login_required cart_view) [].

(** [@app.route('/search')]: [Item.query.filter(Item.name.like(search)).all()]
    is [search_items]; [query] is the [query] key of [request.args], and
    [request.args['query']] on a missing key is a bad request. *)
Definition search_items (q : string) (d : DB.t) : list Item.t :=
  let search := "%" ++ q ++ "%" in
  filter (fun i => like (Item.name i) search) (DB.items d).

Definition search (query : option string) : M response :=
  match query with
  | None => ret (abort 400)
  | Some q =>
      w <- get_world ;;
      let items := search_items q (pending w) in
      ret (render_template "home.html"
             [("items", VItemRows items); ("search", VBool true); ("query", VStr q)])
  end.

(** The body of the loop [for cart_item in current_user.cart] of
    [place_order]. *)
Definition move_to_order (new_order : Order.t) (cart_item : Cart.t) : M unit :=
  session_add_ordered_item (Order.id new_order)
    (Cart.itemid cart_item) (Cart.quantity cart_item) ;;
  session_delete_cart cart_item.

(** [@app.route('/place_order', methods=['POST'])], below [@login_required] *)
Definition place_order_view : pyfunc response :=
  mkfunc "place_order" (fun _ => false)
    (fun _ =>
       rows <- current_user_cart ;;
       match rows with
       | [] =>
           flash "Your cart is empty. Please add items to your cart before placing an order." "error" ;;
           ret (redirect (url_for "cart"))
       | _ :: _ =>
           failed <- try_except
             (uid <- current_user_id ;;
              date <- utcnow ;;
              new_order <- session_add_order uid date "Pending" ;;
              session_commit ;;
              rows <- current_user_cart ;;
              for_each rows (move_to_order new_order) ;;
              session_commit ;;
              flash "Order placed successfully! Cash on Delivery selected." "success" ;;
              ret None)
             (fun e =>
                session_rollback ;;
                flash ("An error occurred while placing the order: " ++ exn_str e) "error" ;;
                ret (Some (redirect (url_for "cart")))) ;;
           match failed with
           | Some early => ret early
           | None => ret (redirect (url_for "orders"))
           end
       end).

Definition place_order : M response := call (login_required place_order_view) [].

(** ** Reference definitions the handlers are compared with *)

(** Case-insensitive substring: [q] occurs in [s] at some position, letters
    compared up to ASCII case. *)
Fixpoint prefix_ci (q s : list ascii) : bool :=
  match q, s with
  | [], _ => true
  | _ :: _, [] => false
  | c :: q', d :: s' => (Ascii.eqb (lower c) (lower d) && prefix_ci q' s')%bool
  end.

Fixpoint occurs_ci (q s : list ascii) : bool :=
  (prefix_ci q s
   || match s with [] => false | _ :: s' => occurs_ci q s' end)%bool.

Definition contains_ci (name query : string) : bool :=
  occurs_ci (list_ascii_of_string query) (list_ascii_of_string name).

(** A query with none of the characters [LIKE] reads as a wildcard. *)
Definition is_wildcard (c : ascii) : bool :=
  (Ascii.eqb c percent || Ascii.eqb c underscore)%bool.

Definition plain_query (q : string) : bool :=
  forallb (fun c => negb (is_wildcard c)) (list_ascii_of_string q).

(** The sum of [item.price * quantity] over cart entries. *)
Definition Zsum (l : list Z) : Z := fold_right Z.add 0 l.

Definition entry_price (d : DB.t) (c : Cart.t) : Z :=
  match cart_item c d with
  | Some it => Item.price it * Cart.quantity c
  | None => 0
  end.

Definition cart_total (d : DB.t) (rows : list Cart.t) : Z :=
  Zsum (map (entry_price d) rows).

(** The [{"price": ..., "quantity": ...}] entry the cart page gets for a
    cart entry. *)
Definition entry_price_id (d : DB.t) (c : Cart.t) : string * Z :=
  (match cart_item c d with Some it => Item.price_id it | None => "" end,
   Cart.quantity c).

(** The (item, quantity) pair of a cart entry and of a line item. *)
Definition entry_pair (c : Cart.t) : Z * Z := (Cart.itemid c, Cart.quantity c).
Definition line_pair (r : Ordered_item.t) : Z * Z :=
  (Ordered_item.itemid r, Ordered_item.quantity r).

(** Referential integrity: every cart entry refers to an item, and every
    line item to an order. *)
Definition cart_items_exist (d : DB.t) : bool :=
  forallb (fun c => match cart_item c d with Some _ => true | None => false end)
          (DB.cart d).

(** Every entry of the cart of user [u] refers to an item, whatever the
    entries of the other carts refer to. *)
Definition own_cart_items_exist (u : Z) (d : DB.t) : bool :=
  forallb (fun c => match cart_item c d with Some _ => true | None => false end)
          (DB.cart_of u d).

Definition line_items_refer (d : DB.t) : bool :=
  forallb (fun r => existsb (fun o => Order.id o =? Ordered_item.oid r) (DB.orders d))
          (DB.ordered_items d).

(** No two users share an email address. *)
Definition emails_unique (d : DB.t) : Prop :=
  NoDup (map User.email (DB.users d)).

(** What one turn of the transfer loop of [place_order] does to the rows. *)
Definition transfer_step (oid : Z) (d : DB.t) (c : Cart.t) : DB.t :=
  DB.with_cart (filter (fun r => negb (Cart.id r =? Cart.id c)))
    (DB.with_ordered_items
       (fun l => (l ++ [Ordered_item.mk (DB.next_id (map Ordered_item.id l))
                          oid (Cart.itemid c) (Cart.quantity c)])%list) d).

Definition transfer (oid : Z) (rows : list Cart.t) (d : DB.t) : DB.t :=
  fold_left (transfer_step oid) rows d.

(** The order [place_order] creates for user [u] at time [t]. *)
Definition new_order_for (d : DB.t) (u : User.t) (t : Z) : Order.t :=
  Order.mk (DB.next_id (map Order.id (DB.orders d))) (User.id u) t "Pending".

(** The rows once the order row is added and committed, and the rows after
    a complete placement. *)
Definition with_new_order (d : DB.t) (u : User.t) (t : Z) : DB.t :=
  DB.with_orders (fun l => (l ++ [new_order_for d u t])%list) d.

Definition placed (d : DB.t) (u : User.t) (t : Z) : DB.t :=
  transfer (Order.id (new_order_for d u t)) (DB.cart_of (User.id u) d)
           (with_new_order d u t).

(** The account [register] creates. *)
Definition new_user_for `{Collaborators} (d : DB.t) (form : RegisterForm) (salt : string)
  : User.t :=
  User.mk (DB.next_id (map User.id (DB.users d)))
          (register_name form) (register_email form)
          (generate_password_hash (register_password form) "pbkdf2:sha256" 8 salt)
          (register_phone form) false.

(** The row [confirm_email] writes back. *)
Definition confirmed (u : User.t) : User.t :=
  User.mk (User.id u) (User.name u) (User.email u) (User.password u)
          (User.phone u) true.

(** ** Fixtures: a small shop and stand-ins for the collaborators *)

Definition test_collaborators : Collaborators := {|
  SECRET_KEY := "secret";
  generate_password_hash := fun pw _ _ salt => salt ++ "$" ++ pw;
  check_password_hash := fun h pw => String.eqb h ("salt$" ++ pw);
  validate_login := fun _ => true;
  validate_register := fun _ => true
|}.

Definition alice : User.t := User.mk 1 "alice" "alice@example.com" "salt$wonderland" "555-0100" false.
Definition bob : User.t := User.mk 2 "bob" "bob@example.com" "salt$builder" "555-0101" true.

Definition apple : Item.t := Item.mk 1 "Apple" 3 "price_apple".
Definition bag : Item.t := Item.mk 2 "Bag" 5 "price_bag".

Definition shop : DB.t :=
  DB.mk [alice; bob] [apple; bag]
        [Cart.mk 1 1 1 2; Cart.mk 2 1 2 1]
        [] [].

(** ** The remaining routes *)

(** [logout_user()] *)
Definition logout_user : M unit := modify (set_session_uid None).

(** [@app.route("/")] *)
Definition home : M response :=
  w <- get_world ;;
  let items := DB.items (pending w) in
  ret (render_template "home.html" [("items", VItemRows items)]).

(** [@app.route("/logout")], below [@login_required] *)
Definition logout_view : pyfunc response :=
  mkfunc "logout" (fun _ => false)
    (fun _ => logout_user ;; ret (redirect (url_for "login"))).

Definition logout : M response := call (login_required logout_view) [].

(** The methods of [User] that write the cart (app.db_models), the mailer
    of app.funcs, and the way the store reads the path segment of
    [/add/<id>] as a primary key. *)
Class Outside := {
  user_add_to_cart : User.t -> string -> string -> M unit;
  user_remove_from_cart : User.t -> string -> string -> M unit;
  send_confirmation_email : string -> M unit;
  item_key : string -> option Z
}.

(** [current_user.email] *)
Definition current_user_email : M string :=
  cu <- current_user ;;
  match cu with
  | Some u => ret (User.email u)
  | None => raise (anonymous_has_no "email")
  end.

Section CartRoutes.
Context `{Outside}.

(** [current_user.add_to_cart(id, quantity)] and
    [current_user.remove_from_cart(id, quantity)] *)
Definition current_user_add_to_cart (id quantity : string) : M unit :=
  cu <- current_user ;;
  match cu with
  | Some u => user_add_to_cart u id quantity
  | None => raise (anonymous_has_no "add_to_cart")
  end.

Definition current_user_remove_from_cart (id quantity : string) : M unit :=
  cu <- current_user ;;
  match cu with
  | Some u => user_remove_from_cart u id quantity
  | None => raise (anonymous_has_no "remove_from_cart")
  end.

(** [@app.route("/resend")], below [@login_required] *)
Definition resend_view : pyfunc response :=
  mkfunc "resend" (fun _ => false)
    (fun _ =>
       email <- current_user_email ;;
       send_confirmation_email email ;;
       logout_user ;;
       flash "Confirmation email sent successfully." "success" ;;
       ret (redirect (url_for "login"))).

Definition resend : M response := call (login_required resend_view) [].

(** [@app.route("/add/<id>", methods=['POST'])]; the route takes POST
    only, so [request.method == "POST"] holds; [quantity] is the
    [quantity] field of [request.form], and [request.form["quantity"]] on
    a missing field is a bad request. *)
Definition add_to_cart (id : string) (quantity : option string) : M response :=
  auth <- is_authenticated ;;
  if negb auth then
    flash ("You must login first!<br> <a href=" ++ url_for "login" ++ ">Login now!</a>")
          "error" ;;
    ret (redirect (url_for "login"))
  else
    w <- get_world ;;
    let item := match item_key id with
                | Some k => DB.get_item k (pending w)
                | None => None
                end in
    match quantity with
    | None => ret (abort 400)
    | Some quantity =>
        current_user_add_to_cart id quantity ;;
        match item with
        | None => raise (none_has_no "name")
        | Some it =>
            flash (Item.name it
                   ++ " successfully added to the <a href=cart>cart</a>.<br> <a href="
                   ++ url_for "cart" ++ ">view cart!</a>") "success" ;;
            ret (redirect (url_for "home"))
        end
    end.

(** [@app.route("/remove/<id>/<quantity>")], below [@login_required] *)
Definition remove_view (id quantity : string) : pyfunc response :=
  mkfunc "remove" (fun _ => false)
    (fun _ =>
       current_user_remove_from_cart id quantity ;;
       ret (redirect (url_for "cart"))).

Definition remove (id quantity : string) : M response :=
  call (login_required (remove_view id quantity)) [].
End CartRoutes.

(** Primary keys are unique. *)
Definition cart_keys_unique (d : DB.t) : Prop := NoDup (map Cart.id (DB.cart d)).
Definition user_keys_unique (d : DB.t) : Prop := NoDup (map User.id (DB.users d)).

(** Two worlds with the same rows, committed and pending, and the same
    failure schedule: no write lies between them. *)
Definition same_store (w w' : World) : Prop :=
  persisted w' = persisted w /\ pending w' = pending w /\ fault w' = fault w.

(** Two strings that differ in the case of ASCII letters only. *)
Definition same_up_to_case (a b : string) : Prop :=
  map lower (list_ascii_of_string a) = map lower (list_ascii_of_string b).

(** A stand-in for the cart methods: the entry is appended and committed. *)
Definition test_outside : Outside := {|
  user_add_to_cart := fun u _ _ =>
    session_update
      (DB.with_cart (fun l => (l ++ [Cart.mk (DB.next_id (map Cart.id l)) (User.id u) 99 1])%list)) ;;
    session_commit;
  user_remove_from_cart := fun _ _ _ => ret tt;
  send_confirmation_email := fun _ => ret tt;
  item_key := fun s => if String.eqb s "1" then Some 1
                       else if String.eqb s "2" then Some 2
                       else if String.eqb s "99" then Some 99
                       else None
|}.

(** * Properties *)

(** ** The handler monad *)

Lemma run_bind {A B} (m : M A) (k : A -> M B) (w : World) :
  run (bind m k) w =
  match run m w with
  | (Return a, w') => run (k a) w'
  | (Raise e, w') => (Raise e, w')
  end.
Proof. reflexivity. Qed.

Lemma logged_in_request (d : DB.t) (sess : option Z) (t : Z) (f : option nat) :
  current_user (request_world d sess t f)
  = (Return (logged_in sess d), request_world d sess t f).
Proof. reflexivity. Qed.

(** ** Order placement *)

(** C3: an authenticated user whose cart is empty is told so, and nothing
    is written: the request ends in the world it started in but for the
    flashed message, so the Order, OrderedItem and CartEntry row counts
    are what they were. *)
Theorem place_order_empty_cart (d : DB.t) (sess : option Z) (u : User.t)
    (t : Z) (f : option nat) :
  logged_in sess d = Some u ->
  DB.cart_of (User.id u) d = [] ->
  let w0 := request_world d sess t f in
  let (r, w) := run place_order w0 in
  r = Return (redirect "/cart")
  /\ w = set_flashed
           [("Your cart is empty. Please add items to your cart before placing an order.",
             "error")] w0
  /\ persisted w = d
  /\ List.length (DB.orders (persisted w)) = List.length (DB.orders d)
  /\ List.length (DB.ordered_items (persisted w)) = List.length (DB.ordered_items d)
  /\ List.length (DB.cart (persisted w)) = List.length (DB.cart d).
Proof.
  intros Hu Hcart.
  unfold run, place_order, call, login_required, place_order_view; cbn.
  unfold bind, is_authenticated, current_user_cart, current_user, bind; cbn.
  rewrite Hu; cbn. rewrite Hu; cbn. rewrite Hcart; cbn.
  repeat split.
Qed.

Lemma place_order_empty_cart_witness :
  let d := DB.with_cart (fun _ => []) shop in
  let w0 := request_world d (Some 1) 1000 None in
  let (r, w) := run place_order w0 in
  r = Return (redirect "/cart")
  /\ w = set_flashed
           [("Your cart is empty. Please add items to your cart before placing an order.",
             "error")] w0
  /\ persisted w = d
  /\ List.length (DB.orders (persisted w)) = List.length (DB.orders d)
  /\ List.length (DB.ordered_items (persisted w)) = List.length (DB.ordered_items d)
  /\ List.length (DB.cart (persisted w)) = List.length (DB.cart d).
Proof.
  exact (place_order_empty_cart (DB.with_cart (fun _ => []) shop) (Some 1) alice
           1000 None eq_refl eq_refl).
Defined.

Lemma set_pending_same (w : World) : set_pending (pending w) w = w.
Proof. destruct w; reflexivity. Qed.

(** With a store that does not fail, the loop applies [transfer]. *)
Lemma transfer_loop_ok (o : Order.t) (rows : list Cart.t) :
  forall w, fault w = None ->
  for_each rows (move_to_order o) w
  = (Return tt, set_pending (transfer (Order.id o) rows (pending w)) w).
Proof.
  induction rows as [|c rest IH]; intros w Hf.
  - cbn. now rewrite set_pending_same.
  - cbn [for_each]. unfold bind at 1.
    assert (Hstep : move_to_order o c w
                    = (Return tt, set_pending (transfer_step (Order.id o) (pending w) c) w)).
    { destruct w as [pe pn se fl cl fa]; cbn in Hf; subst fa. reflexivity. }
    rewrite Hstep. rewrite IH by (destruct w; exact Hf).
    destruct w; reflexivity.
Qed.

(** A failure inside the loop leaves the committed rows, the login session
    and the flash queue alone. *)
Lemma transfer_loop_fault (o : Order.t) (rows : list Cart.t) :
  forall w k, fault w = Some k -> (k < 2 * List.length rows)%nat ->
  exists pn,
    for_each rows (move_to_order o) w
    = (Raise (SQLAlchemyError "store failure"),
       set_fault None (set_pending pn w)).
Proof.
  induction rows as [|c rest IH]; intros w k Hf Hk.
  - cbn in Hk. lia.
  - destruct w as [pe pn se fl cl fa]; cbn in Hf; subst fa.
    destruct k as [|[|k]].
    + eexists. reflexivity.
    + eexists. reflexivity.
    + cbn [for_each]. unfold bind at 1.
      assert (Hstep : move_to_order o c (mkWorld pe pn se fl cl (Some (S (S k))))
                      = (Return tt, mkWorld pe (transfer_step (Order.id o) pn c) se fl cl (Some k)))
        by reflexivity.
      rewrite Hstep.
      destruct (IH (mkWorld pe (transfer_step (Order.id o) pn c) se fl cl (Some k)) k eq_refl)
        as [pn' Hrest].
      { cbn [List.length] in Hk. lia. }
      rewrite Hrest. exists pn'. reflexivity.
Qed.

(** A failure scheduled after the loop lets the loop run to its end. *)
Lemma transfer_loop_late (o : Order.t) (rows : list Cart.t) :
  forall w k, fault w = Some (2 * List.length rows + k)%nat ->
  for_each rows (move_to_order o) w
  = (Return tt, set_fault (Some k) (set_pending (transfer (Order.id o) rows (pending w)) w)).
Proof.
  induction rows as [|c rest IH]; intros w k Hf.
  - destruct w as [pe pn se fl cl fa]; cbn in Hf; subst fa. reflexivity.
  - destruct w as [pe pn se fl cl fa]; cbn [fault] in Hf; subst fa.
    cbn [for_each]. unfold bind at 1.
    replace (2 * List.length (c :: rest) + k)%nat
      with (S (S (2 * List.length rest + k))) by (cbn [List.length]; lia).
    assert (Hstep : move_to_order o c
                      (mkWorld pe pn se fl cl (Some (S (S (2 * List.length rest + k)))))
                    = (Return tt, mkWorld pe (transfer_step (Order.id o) pn c) se fl cl
                                          (Some (2 * List.length rest + k)%nat)))
      by reflexivity.
    rewrite Hstep.
    rewrite (IH (mkWorld pe (transfer_step (Order.id o) pn c) se fl cl
                        (Some (2 * List.length rest + k)%nat)) k eq_refl).
    reflexivity.
Qed.

(** *** What [transfer] does to each table *)

Lemma transfer_cons oid c rest d :
  transfer oid (c :: rest) d = transfer oid rest (transfer_step oid d c).
Proof. reflexivity. Qed.

Lemma transfer_users oid rows : forall d, DB.users (transfer oid rows d) = DB.users d.
Proof.
  induction rows as [|c rest IH]; intros d; [reflexivity|].
  rewrite transfer_cons, IH. reflexivity.
Qed.

Lemma transfer_items oid rows : forall d, DB.items (transfer oid rows d) = DB.items d.
Proof.
  induction rows as [|c rest IH]; intros d; [reflexivity|].
  rewrite transfer_cons, IH. reflexivity.
Qed.

Lemma transfer_orders oid rows : forall d, DB.orders (transfer oid rows d) = DB.orders d.
Proof.
  induction rows as [|c rest IH]; intros d; [reflexivity|].
  rewrite transfer_cons, IH. reflexivity.
Qed.

Lemma transfer_cart oid rows :
  forall d,
    DB.cart (transfer oid rows d)
    = filter (fun r => negb (existsb (fun c => Cart.id r =? Cart.id c) rows)) (DB.cart d).
Proof.
  induction rows as [|c rest IH]; intros d.
  - cbn. induction (DB.cart d) as [|r l IHl]; cbn; [reflexivity | now rewrite <- IHl].
  - rewrite transfer_cons, IH. cbn [transfer_step DB.with_cart DB.with_ordered_items DB.cart existsb].
    induction (DB.cart d) as [|r l IHl]; cbn [filter]; [reflexivity|].
    destruct (Cart.id r =? Cart.id c); cbn [negb orb filter]; [exact IHl|].
    destruct (existsb _ rest); cbn [negb]; [exact IHl | now rewrite IHl].
Qed.

Lemma transfer_ordered_items oid rows :
  forall d, exists lines,
    DB.ordered_items (transfer oid rows d) = (DB.ordered_items d ++ lines)%list
    /\ map line_pair lines = map entry_pair rows
    /\ Forall (fun r => Ordered_item.oid r = oid) lines.
Proof.
  induction rows as [|c rest IH]; intros d.
  - exists []. cbn. rewrite app_nil_r. repeat split. constructor.
  - rewrite transfer_cons.
    destruct (IH (transfer_step oid d c)) as (lines & Heq & Hpairs & Hoid).
    eexists (_ :: lines). rewrite Heq.
    cbn [transfer_step DB.with_cart DB.with_ordered_items DB.ordered_items].
    rewrite <- app_assoc. cbn [app]. split; [reflexivity|].
    split; [cbn [map]; now rewrite Hpairs | constructor; [reflexivity | exact Hoid]].
Qed.

(** *** Running [place_order] *)

Ltac step :=
  cbn -[DB.next_id String.append for_each move_to_order transfer logged_in
        DB.cart_of new_order_for].


Lemma logged_in_same_users sess d d' :
  DB.users d' = DB.users d -> logged_in sess d' = logged_in sess d.
Proof.
  intros E. destruct sess as [i|]; [|reflexivity].
  unfold logged_in, load_user, DB.get_user. now rewrite E.
Qed.

Ltac same_user d :=
  repeat match goal with
  | |- context [logged_in ?s (DB.with_orders ?f d)] =>
      change (logged_in s (DB.with_orders f d)) with (logged_in s d)
  | |- context [DB.cart_of ?x (DB.with_orders ?f d)] =>
      change (DB.cart_of x (DB.with_orders f d)) with (DB.cart_of x d)
  end.

Lemma place_order_run_ok (d : DB.t) (sess : option Z) (u : User.t) (t : Z) :
  logged_in sess d = Some u ->
  DB.cart_of (User.id u) d <> [] ->
  run place_order (request_world d sess t None)
  = (Return (redirect "/orders"),
     mkWorld (placed d u t) (placed d u t) sess
       [("Order placed successfully! Cash on Delivery selected.", "success")] t None).
Proof.
  intros Hu Hcart.
  destruct (DB.cart_of (User.id u) d) as [|c0 rows0] eqn:Erows; [congruence|].
  unfold run, place_order, call, login_required, place_order_view.
  unfold is_authenticated, current_user_cart, current_user_id, current_user,
    try_except, bind, request_world.
  step. rewrite Hu. step. rewrite Hu. step. rewrite Erows. step. rewrite Hu. step.
  same_user d. rewrite Hu. step. same_user d.
  rewrite transfer_loop_ok by reflexivity. step.
  unfold placed, with_new_order. rewrite Erows. reflexivity.
Qed.

(** A store failure at write [k] of the request, the order row being
    written by write 0 and committed by write 1. *)
Lemma place_order_run_early_fault (d : DB.t) (sess : option Z) (u : User.t)
    (t : Z) (k : nat) :
  logged_in sess d = Some u ->
  DB.cart_of (User.id u) d <> [] ->
  (k < 2)%nat ->
  run place_order (request_world d sess t (Some k))
  = (Return (redirect "/cart"),
     mkWorld d d sess
       [("An error occurred while placing the order: store failure", "error")] t None).
Proof.
  intros Hu Hcart Hk.
  destruct (DB.cart_of (User.id u) d) as [|c0 rows0] eqn:Erows; [congruence|].
  unfold run, place_order, call, login_required, place_order_view.
  unfold is_authenticated, current_user_cart, current_user_id, current_user,
    try_except, bind, request_world.
  step. rewrite Hu. step. rewrite Hu. step. rewrite Erows. step. rewrite Hu.
  destruct k as [|[|k]]; [reflexivity | reflexivity | lia].
Qed.

Lemma place_order_run_transfer_fault (d : DB.t) (sess : option Z) (u : User.t)
    (t : Z) (k : nat) :
  logged_in sess d = Some u ->
  DB.cart_of (User.id u) d <> [] ->
  (2 <= k < 2 * List.length (DB.cart_of (User.id u) d) + 3)%nat ->
  run place_order (request_world d sess t (Some k))
  = (Return (redirect "/cart"),
     mkWorld (with_new_order d u t) (with_new_order d u t) sess
       [("An error occurred while placing the order: store failure", "error")] t None).
Proof.
  intros Hu Hcart Hk.
  destruct (DB.cart_of (User.id u) d) as [|c0 rows0] eqn:Erows; [congruence|].
  unfold run, place_order, call, login_required, place_order_view.
  unfold is_authenticated, current_user_cart, current_user_id, current_user,
    try_except, bind, request_world.
  step. rewrite Hu. step. rewrite Hu. step. rewrite Erows. step. rewrite Hu.
  destruct k as [|[|k]]; [lia | lia |].
  step. same_user d. rewrite Hu. step. same_user d. rewrite Erows.
  destruct (Nat.lt_ge_cases k (2 * List.length (c0 :: rows0))) as [Hin | Hlate].
  - match goal with
    | |- context [for_each ?rows (move_to_order ?o) ?w] =>
        destruct (transfer_loop_fault o rows w k eq_refl Hin) as [pn Hloop];
        rewrite Hloop
    end.
    reflexivity.
  - assert (Ek : k = (2 * List.length (c0 :: rows0) + 0)%nat) by lia.
    rewrite Ek.
    match goal with
    | |- context [for_each ?rows (move_to_order ?o) ?w] =>
        rewrite (transfer_loop_late o rows w 0 eq_refl)
    end.
    reflexivity.
Qed.

(** *** Keys *)

Lemma next_id_above (ids : list Z) (x : Z) : In x ids -> x < DB.next_id ids.
Proof.
  unfold DB.next_id. induction ids as [|y l IH]; cbn [fold_right In]; [tauto|].
  intros [-> | Hin]; [lia | specialize (IH Hin); lia].
Qed.

Lemma new_order_id_fresh (d : DB.t) (u : User.t) (t : Z) :
  ~ In (Order.id (new_order_for d u t)) (map Order.id (DB.orders d)).
Proof.
  intros Hin. apply next_id_above in Hin. cbn in Hin. lia.
Qed.

Lemma no_line_of_new_order (d : DB.t) (u : User.t) (t : Z) :
  line_items_refer d = true ->
  DB.items_of_order (Order.id (new_order_for d u t)) d = [].
Proof.
  unfold line_items_refer, DB.items_of_order. intros Href.
  rewrite forallb_forall in Href.
  induction (DB.ordered_items d) as [|r l IH]; [reflexivity|].
  cbn [filter].
  destruct (Ordered_item.oid r =? Order.id (new_order_for d u t)) eqn:E.
  - exfalso. apply Z.eqb_eq in E.
    specialize (Href r (or_introl eq_refl)).
    apply existsb_exists in Href. destruct Href as (o & Ho & Eo).
    apply Z.eqb_eq in Eo.
    apply (new_order_id_fresh d u t). rewrite <- E, <- Eo.
    now apply in_map.
  - apply IH. intros x Hx. apply Href. now right.
Qed.

Lemma filter_all {A} (p : A -> bool) (l : list A) :
  Forall (fun x => p x = true) l -> filter p l = l.
Proof.
  induction 1 as [|x l Hx _ IH]; cbn; [reflexivity | now rewrite Hx, IH].
Qed.

Lemma filter_none {A} (p : A -> bool) (l : list A) :
  Forall (fun x => p x = false) l -> filter p l = [].
Proof.
  induction 1 as [|x l Hx _ IH]; cbn; [reflexivity | now rewrite Hx, IH].
Qed.

(** Deleting every entry of a user's cart leaves that user no entry. *)
Lemma cart_emptied (u : Z) (rows : list Cart.t) :
  filter (fun c => Cart.uid c =? u)
    (filter (fun r => negb (existsb (fun c => Cart.id r =? Cart.id c)
                                    (filter (fun c => Cart.uid c =? u) rows)))
            rows) = [].
Proof.
  apply filter_none. apply Forall_forall. intros r Hr.
  apply filter_In in Hr. destruct Hr as [Hin Hkeep].
  destruct (Cart.uid r =? u) eqn:Eu; [|reflexivity].
  exfalso. apply negb_true_iff in Hkeep.
  assert (Hex : existsb (fun c => Cart.id r =? Cart.id c)
                        (filter (fun c => Cart.uid c =? u) rows) = true).
  { apply existsb_exists. exists r. split; [|apply Z.eqb_refl].
    apply filter_In. now split. }
  congruence.
Qed.

(** C2: a successful placement for a user with a non-empty cart adds one
    order, Pending and owned by the user, under a key no order had; the
    line items of that order are, in (item, quantity), the cart entries
    the user had, in their order; the user's cart is empty afterwards; the
    line items of every other order, the users and the catalog are
    untouched. *)
Theorem place_order_transfers_cart (d : DB.t) (sess : option Z) (u : User.t) (t : Z) :
  logged_in sess d = Some u ->
  DB.cart_of (User.id u) d <> [] ->
  line_items_refer d = true ->
  let (r, w) := run place_order (request_world d sess t None) in
  let d' := persisted w in
  let o := new_order_for d u t in
  r = Return (redirect "/orders")
  /\ DB.orders d' = (DB.orders d ++ [o])%list
  /\ Order.status o = "Pending"
  /\ Order.uid o = User.id u
  /\ ~ In (Order.id o) (map Order.id (DB.orders d))
  /\ map line_pair (DB.items_of_order (Order.id o) d')
     = map entry_pair (DB.cart_of (User.id u) d)
  /\ DB.cart_of (User.id u) d' = []
  /\ (forall o', o' <> Order.id o ->
        DB.items_of_order o' d' = DB.items_of_order o' d)
  /\ DB.users d' = DB.users d
  /\ DB.items d' = DB.items d.
Proof.
  intros Hu Hcart Href.
  rewrite (place_order_run_ok d sess u t Hu Hcart). cbv zeta. cbn [persisted].
  destruct (transfer_ordered_items (Order.id (new_order_for d u t))
              (DB.cart_of (User.id u) d) (with_new_order d u t))
    as (lines & Hlines & Hpairs & Hoid).
  change (transfer _ _ _) with (placed d u t) in Hlines.
  change (DB.ordered_items (with_new_order d u t)) with (DB.ordered_items d) in Hlines.
  split; [reflexivity|].
  split; [unfold placed; now rewrite transfer_orders|].
  split; [reflexivity|]. split; [reflexivity|].
  split; [apply new_order_id_fresh|].
  split.
  { unfold DB.items_of_order. rewrite Hlines, filter_app.
    fold (DB.items_of_order (Order.id (new_order_for d u t)) d).
    rewrite (no_line_of_new_order d u t Href). cbn [app].
    rewrite filter_all; [exact Hpairs|].
    eapply Forall_impl; [|exact Hoid]. cbn. intros r ->. apply Z.eqb_refl. }
  split.
  { unfold DB.cart_of, placed. rewrite transfer_cart.
    change (DB.cart (with_new_order d u t)) with (DB.cart d).
    change (DB.cart_of (User.id u) d) with (filter (fun c => Cart.uid c =? User.id u) (DB.cart d)).
    apply cart_emptied. }
  split.
  { intros o' Ho'. unfold DB.items_of_order. rewrite Hlines, filter_app.
    rewrite (filter_none _ lines); [now rewrite app_nil_r|].
    eapply Forall_impl; [|exact Hoid]. cbn beta. intros r Hr.
    apply Z.eqb_neq. rewrite Hr. intros E. now apply Ho'. }
  split; [unfold placed; now rewrite transfer_users|].
  unfold placed; now rewrite transfer_items.
Qed.

Lemma place_order_transfers_cart_witness :
  let (r, w) := run place_order (request_world shop (Some 1) 1000 None) in
  let d' := persisted w in
  let o := new_order_for shop alice 1000 in
  r = Return (redirect "/orders")
  /\ DB.orders d' = (DB.orders shop ++ [o])%list
  /\ Order.status o = "Pending"
  /\ Order.uid o = User.id alice
  /\ ~ In (Order.id o) (map Order.id (DB.orders shop))
  /\ map line_pair (DB.items_of_order (Order.id o) d')
     = map entry_pair (DB.cart_of (User.id alice) shop)
  /\ DB.cart_of (User.id alice) d' = []
  /\ (forall o', o' <> Order.id o ->
        DB.items_of_order o' d' = DB.items_of_order o' shop)
  /\ DB.users d' = DB.users shop
  /\ DB.items d' = DB.items shop.
Proof.
  refine (place_order_transfers_cart shop (Some 1) alice 1000 eq_refl _ eq_refl).
  cbn. discriminate.
Defined.

(** C1, as the code has it: when the store fails during the transfer (any
    write after the commit that follows the order row, up to and including
    the final commit), the handler rolls back and reports the error, the
    cart entries and the line items are what they were, and the order row
    committed before the transfer stays in the store. *)
Theorem place_order_failure_keeps_order (d : DB.t) (sess : option Z) (u : User.t)
    (t : Z) (k : nat) :
  logged_in sess d = Some u ->
  DB.cart_of (User.id u) d <> [] ->
  (2 <= k < 2 * List.length (DB.cart_of (User.id u) d) + 3)%nat ->
  let (r, w) := run place_order (request_world d sess t (Some k)) in
  r = Return (redirect "/cart")
  /\ flashed w = [("An error occurred while placing the order: store failure", "error")]
  /\ DB.orders (persisted w) = (DB.orders d ++ [new_order_for d u t])%list
  /\ DB.cart (persisted w) = DB.cart d
  /\ DB.ordered_items (persisted w) = DB.ordered_items d
  /\ persisted w <> d.
Proof.
  intros Hu Hcart Hk.
  rewrite (place_order_run_transfer_fault d sess u t k Hu Hcart Hk).
  cbn [persisted flashed]. repeat split.
  intros E. apply (f_equal (fun x => List.length (DB.orders x))) in E.
  cbn in E. rewrite length_app in E. cbn in E. lia.
Qed.

Lemma place_order_failure_keeps_order_witness :
  let (r, w) := run place_order (request_world shop (Some 1) 1000 (Some 3%nat)) in
  r = Return (redirect "/cart")
  /\ flashed w = [("An error occurred while placing the order: store failure", "error")]
  /\ DB.orders (persisted w) = (DB.orders shop ++ [new_order_for shop alice 1000])%list
  /\ DB.cart (persisted w) = DB.cart shop
  /\ DB.ordered_items (persisted w) = DB.ordered_items shop
  /\ persisted w <> shop.
Proof.
  refine (place_order_failure_keeps_order shop (Some 1) alice 1000 3 eq_refl _ _).
  - cbn. discriminate.
  - cbn. lia.
Defined.

(** A failure before the order row is committed leaves the store as it
    was. *)
Lemma place_order_failure_before_commit (d : DB.t) (sess : option Z) (u : User.t)
    (t : Z) (k : nat) :
  logged_in sess d = Some u ->
  DB.cart_of (User.id u) d <> [] ->
  (k < 2)%nat ->
  persisted (snd (run place_order (request_world d sess t (Some k)))) = d.
Proof.
  intros Hu Hcart Hk.
  now rewrite (place_order_run_early_fault d sess u t k Hu Hcart Hk).
Qed.

(** ** The checkout placeholder *)

(** C9: for an authenticated user a POST to /checkout calls the view
    [orders], which takes no argument, with the keyword [uid]; the call
    raises a TypeError that nothing catches, before any write: the world,
    and with it the Order table, is what it was. *)
Theorem checkout_post_raises (d : DB.t) (sess : option Z) (u : User.t)
    (t : Z) (f : option nat) :
  logged_in sess d = Some u ->
  run (checkout POST) (request_world d sess t f)
  = (Raise (TypeError "orders() got an unexpected keyword argument 'uid'"),
     request_world d sess t f)
  /\ DB.orders (persisted (snd (run (checkout POST) (request_world d sess t f))))
     = DB.orders d.
Proof.
  intros Hu.
  assert (E : run (checkout POST) (request_world d sess t f)
              = (Raise (TypeError "orders() got an unexpected keyword argument 'uid'"),
                 request_world d sess t f)).
  { unfold run, checkout, call, login_required, checkout_view, orders, orders_view.
    unfold is_authenticated, current_user_id, current_user, bind, request_world.
    do 3 (cbn -[logged_in]; rewrite ?Hu). reflexivity. }
  split; [exact E | now rewrite E].
Qed.

Lemma checkout_post_raises_witness :
  run (checkout POST) (request_world shop (Some 1) 1000 None)
  = (Raise (TypeError "orders() got an unexpected keyword argument 'uid'"),
     request_world shop (Some 1) 1000 None)
  /\ DB.orders (persisted (snd (run (checkout POST) (request_world shop (Some 1) 1000 None))))
     = DB.orders shop.
Proof.
  exact (checkout_post_raises shop (Some 1) alice 1000 None eq_refl).
Defined.

(** The view itself is fine when called as the route calls it. *)
Lemma orders_route_renders (d : DB.t) (sess : option Z) (u : User.t)
    (t : Z) (f : option nat) :
  logged_in sess d = Some u ->
  run (call orders []) (request_world d sess t f)
  = (Return (render_template "orders.html"
               [("orders", VOrders (DB.orders_of (User.id u) d))]),
     request_world d sess t f).
Proof.
  intros Hu.
  unfold run, call, orders, login_required, orders_view.
  unfold is_authenticated, current_user_orders, current_user, bind, request_world.
  cbn -[logged_in]. rewrite Hu. cbn -[logged_in]. rewrite Hu. reflexivity.
Qed.

(** ** Email confirmation *)

Section Confirmation.
Context `{Collaborators}.

(** [loads] reads the clock and nothing else. *)
Lemma loads_pure (tok : token) (salt : string) (age : Z) (w : World) :
  snd (loads SECRET_KEY tok salt age w) = w.
Proof.
  unfold loads, bind, utcnow. destruct tok as [raw | k s issued payload]; cbn.
  - reflexivity.
  - destruct (negb _); [reflexivity|].
    destruct (_ >? _); [reflexivity|]. destruct (_ <? _); reflexivity.
Qed.

(** C10: a token that decodes within the validity window to an email
    address no user has makes [confirm_email] read [email_confirmed] off
    the None the lookup returned; the AttributeError is not caught, and
    no message is flashed. *)
Theorem confirm_email_unknown_user_raises (tok : token) (email : string)
    (d : DB.t) (sess : option Z) (t : Z) (f : option nat) :
  fst (loads SECRET_KEY tok "email-confirmation-salt" 3600 (request_world d sess t f))
  = Return email ->
  DB.user_by_email email d = None ->
  run (confirm_email tok) (request_world d sess t f)
  = (Raise (AttributeError "'NoneType' object has no attribute 'email_confirmed'"),
     request_world d sess t f).
Proof.
  intros Hload Hnone.
  pose proof (loads_pure tok "email-confirmation-salt" 3600 (request_world d sess t f)) as Hw.
  unfold run, confirm_email, try_except. unfold bind at 1 2.
  destruct (loads SECRET_KEY tok "email-confirmation-salt" 3600 (request_world d sess t f))
    as [r w]. cbn [fst snd] in *. subst r w.
  cbn -[DB.user_by_email]. unfold bind. cbn -[DB.user_by_email].
  rewrite Hnone. reflexivity.
Qed.

Lemma user_by_email_saved (e : string) (u u' : User.t) (l : list User.t) :
  find (fun r => String.eqb (User.email r) e) l = Some u ->
  User.email u' = e ->
  find (fun r => String.eqb (User.email r) e)
       (map (fun r => if User.id r =? User.id u then u' else r) l) = Some u'.
Proof.
  intros Hfind He'. induction l as [|r l IH]; [discriminate|].
  cbn [find map] in *.
  destruct (String.eqb (User.email r) e) eqn:Er.
  - injection Hfind as ->. rewrite Z.eqb_refl, He', String.eqb_refl. reflexivity.
  - destruct (User.id r =? User.id u).
    + rewrite He', String.eqb_refl. reflexivity.
    + rewrite Er. now apply IH.
Qed.

(** C7: a token that decodes to the address of a confirmed account is
    accepted and nothing is written; one for an unconfirmed account writes
    the account back with the flag set, and the lookup then finds it
    confirmed; a token that [loads] refuses is rejected and nothing is
    written; and [loads] refuses every signed token issued more than 3600
    seconds ago. *)
Theorem confirm_email_cases (tok : token) (d : DB.t) (sess : option Z)
    (t : Z) (f : option nat) :
  let w0 := request_world d sess t f in
  let decoded := fst (loads SECRET_KEY tok "email-confirmation-salt" 3600 w0) in
  (forall email u,
      decoded = Return email ->
      DB.user_by_email email d = Some u ->
      User.email_confirmed u = true ->
      run (confirm_email tok) w0
      = (Return (redirect "/login"),
         set_flashed [("Account already confirmed. Please login.", "success")] w0))
  /\ (forall email u,
      decoded = Return email ->
      DB.user_by_email email d = Some u ->
      User.email_confirmed u = false ->
      f = None ->
      let (r, w) := run (confirm_email tok) w0 in
      r = Return (redirect "/login")
      /\ flashed w = [("Email address successfully confirmed!", "success")]
      /\ DB.users (persisted w)
         = map (fun r => if User.id r =? User.id u then confirmed u else r) (DB.users d)
      /\ DB.user_by_email email (persisted w) = Some (confirmed u)
      /\ User.email_confirmed (confirmed u) = true
      /\ DB.items (persisted w) = DB.items d
      /\ DB.cart (persisted w) = DB.cart d
      /\ DB.orders (persisted w) = DB.orders d
      /\ DB.ordered_items (persisted w) = DB.ordered_items d)
  /\ (forall e,
      decoded = Raise e ->
      run (confirm_email tok) w0
      = (Return (redirect "/login"),
         set_flashed [("The confirmation link is invalid or has expired.", "error")] w0))
  /\ (forall k s issued payload,
      tok = Signed k s issued payload ->
      t - issued > 3600 ->
      exists e, decoded = Raise e).
Proof.
  intros w0 decoded.
  pose proof (loads_pure tok "email-confirmation-salt" 3600 w0) as Hw.
  assert (Hrun : forall r, decoded = r ->
            loads SECRET_KEY tok "email-confirmation-salt" 3600 w0 = (r, w0)).
  { intros r <-. subst decoded.
    destruct (loads SECRET_KEY tok "email-confirmation-salt" 3600 w0) as [r' w'].
    cbn [fst snd] in *. now subst w'. }
  split; [|split; [|split]].
  - intros email u Hdec Hfind Hflag.
    unfold run, confirm_email, try_except. unfold bind at 1 2.
    rewrite (Hrun _ Hdec). subst w0.
    cbn -[DB.user_by_email]. unfold bind. cbn -[DB.user_by_email].
    rewrite Hfind. cbn. rewrite Hflag. reflexivity.
  - intros email u Hdec Hfind Hflag ->.
    unfold run, confirm_email, try_except. unfold bind at 1 2.
    rewrite (Hrun _ Hdec). subst w0.
    cbn -[DB.user_by_email]. unfold bind. cbn -[DB.user_by_email].
    rewrite Hfind. cbn -[DB.user_by_email]. rewrite Hflag.
    cbn -[DB.user_by_email].
    repeat split.
    unfold DB.user_by_email in *. cbn [DB.users DB.with_users].
    apply user_by_email_saved; [exact Hfind|].
    apply find_some in Hfind. destruct Hfind as [_ He].
    now apply String.eqb_eq in He.
  - intros e Hdec.
    unfold run, confirm_email, try_except. unfold bind at 1 2.
    rewrite (Hrun _ Hdec). subst w0. reflexivity.
  - intros k s issued payload -> Hold. subst decoded w0.
    unfold loads, bind, utcnow, request_world. cbn [clock fst].
    destruct (negb _); [eexists; reflexivity|].
    replace (t - issued >? 3600) with true by (symmetry; apply Z.gtb_lt; lia).
    eexists; reflexivity.
Qed.
End Confirmation.

Lemma confirm_email_unknown_user_raises_witness :
  let tok := Signed "secret" "email-confirmation-salt" 1000 "carol@example.com" in
  run (confirm_email (H := test_collaborators) tok) (request_world shop None 2000 None)
  = (Raise (AttributeError "'NoneType' object has no attribute 'email_confirmed'"),
     request_world shop None 2000 None).
Proof.
  exact (confirm_email_unknown_user_raises (H := test_collaborators)
           (Signed "secret" "email-confirmation-salt" 1000 "carol@example.com")
           "carol@example.com" shop None 2000 None eq_refl eq_refl).
Defined.

Lemma confirm_email_cases_witness :
  (run (confirm_email (H := test_collaborators)
          (Signed "secret" "email-confirmation-salt" 1000 "bob@example.com"))
       (request_world shop None 2000 None)
   = (Return (redirect "/login"),
      set_flashed [("Account already confirmed. Please login.", "success")]
        (request_world shop None 2000 None)))
  /\ DB.user_by_email "alice@example.com"
       (persisted (snd (run (confirm_email (H := test_collaborators)
                               (Signed "secret" "email-confirmation-salt" 1000
                                       "alice@example.com"))
                            (request_world shop None 2000 None))))
     = Some (confirmed alice)
  /\ (run (confirm_email (H := test_collaborators)
             (Signed "secret" "email-confirmation-salt" 1000 "alice@example.com"))
          (request_world shop None 4601 None)
      = (Return (redirect "/login"),
         set_flashed [("The confirmation link is invalid or has expired.", "error")]
           (request_world shop None 4601 None))).
Proof.
  split; [|split].
  - exact (proj1 (confirm_email_cases (H := test_collaborators)
                    (Signed "secret" "email-confirmation-salt" 1000 "bob@example.com")
                    shop None 2000 None)
                 "bob@example.com" bob eq_refl eq_refl eq_refl).
  - pose proof (proj1 (proj2 (confirm_email_cases (H := test_collaborators)
                    (Signed "secret" "email-confirmation-salt" 1000 "alice@example.com")
                    shop None 2000 None))
                 "alice@example.com" alice eq_refl eq_refl eq_refl eq_refl) as Hflip.
    destruct (run (confirm_email (H := test_collaborators)
                     (Signed "secret" "email-confirmation-salt" 1000 "alice@example.com"))
                  (request_world shop None 2000 None)) as [r w].
    exact (proj1 (proj2 (proj2 (proj2 Hflip)))).
  - pose proof (proj2 (proj2 (proj2 (confirm_email_cases (H := test_collaborators)
                    (Signed "secret" "email-confirmation-salt" 1000 "alice@example.com")
                    shop None 4601 None)))
                 "secret" "email-confirmation-salt" 1000 "alice@example.com"
                 eq_refl ltac:(lia)) as [e He].
    exact (proj1 (proj2 (proj2 (confirm_email_cases (H := test_collaborators)
                    (Signed "secret" "email-confirmation-salt" 1000 "alice@example.com")
                    shop None 4601 None))) e He).
Defined.

(** ** Registration and login *)

Lemma user_by_email_none (e : string) (d : DB.t) :
  ~ In e (map User.email (DB.users d)) -> DB.user_by_email e d = None.
Proof.
  unfold DB.user_by_email. induction (DB.users d) as [|r l IH]; [reflexivity|].
  cbn [map In find]. intros Hnot.
  destruct (String.eqb (User.email r) e) eqn:E.
  - apply String.eqb_eq in E. tauto.
  - apply IH. tauto.
Qed.

Lemma user_by_email_some (e : string) (d : DB.t) :
  In e (map User.email (DB.users d)) ->
  exists u, DB.user_by_email e d = Some u /\ User.email u = e /\ In u (DB.users d).
Proof.
  unfold DB.user_by_email. induction (DB.users d) as [|r l IH]; [contradiction|].
  cbn [map In find]. intros Hin.
  destruct (String.eqb (User.email r) e) eqn:E.
  - apply String.eqb_eq in E. exists r. auto.
  - destruct Hin as [Hr | Hl].
    + apply String.eqb_neq in E. contradiction.
    + destruct (IH Hl) as (u & Hu & He & Hi). exists u. auto.
Qed.

(** With unique addresses, the lookup by a user's address finds that user. *)
Lemma user_by_email_unique (u : User.t) (d : DB.t) :
  emails_unique d -> In u (DB.users d) -> DB.user_by_email (User.email u) d = Some u.
Proof.
  unfold emails_unique, DB.user_by_email.
  induction (DB.users d) as [|r l IH]; [contradiction|].
  cbn [map In find]. intros Hnd Hin. inversion Hnd as [|? ? Hfresh Hrest]; subst.
  destruct Hin as [-> | Hin].
  - now rewrite String.eqb_refl.
  - destruct (String.eqb (User.email r) (User.email u)) eqn:E.
    + apply String.eqb_eq in E. exfalso. apply Hfresh. rewrite E. now apply in_map.
    + now apply IH.
Qed.

Lemma load_user_member (u : User.t) (d : DB.t) :
  In u (DB.users d) -> exists u', load_user (User.id u) d = Some u'.
Proof.
  unfold load_user, DB.get_user. intros Hin.
  destruct (find _ (DB.users d)) as [u'|] eqn:E; [now exists u'|].
  exfalso. pose proof (find_none _ _ E u Hin) as Hno. cbn in Hno.
  now rewrite Z.eqb_refl in Hno.
Qed.

Section Identity.
Context `{Collaborators}.

(** C6: for an anonymous visitor whose submitted form validates, and a
    store where addresses are unique: the address of a stored user with
    a password its hash verifies logs that user in (the session holds
    the user's id, which resolves to a user) with no message; an address
    no user has, and a password the stored hash does not verify, are
    both turned away with an error message, and the session stays
    anonymous.  No row is written in any case. *)
Theorem login_cases (m : http_method) (form : LoginForm) (d : DB.t)
    (sess : option Z) (t : Z) (f : option nat) :
  logged_in sess d = None ->
  validate_on_submit m (validate_login form) = true ->
  let w0 := request_world d sess t f in
  (forall u,
      emails_unique d ->
      In u (DB.users d) ->
      login_email form = User.email u ->
      check_password_hash (User.password u) (login_password form) = true ->
      run (login m form) w0
      = (Return (redirect "/"), set_session_uid (Some (User.id u)) w0)
      /\ logged_in (Some (User.id u)) d <> None)
  /\ (~ In (login_email form) (map User.email (DB.users d)) ->
      run (login m form) w0
      = (Return (redirect "/login"),
         set_flashed
           [("User with email " ++ login_email form
             ++ " doesn't exist!<br> <a href=/register>Register now!</a>", "error")]
           w0)
      /\ logged_in (session_uid (snd (run (login m form) w0))) d = None)
  /\ (forall u,
      emails_unique d ->
      In u (DB.users d) ->
      login_email form = User.email u ->
      check_password_hash (User.password u) (login_password form) = false ->
      run (login m form) w0
      = (Return (redirect "/login"),
         set_flashed [("Email and password incorrect!!", "error")] w0)
      /\ logged_in (session_uid (snd (run (login m form) w0))) d = None).
Proof.
  intros Hanon Hvalid w0.
  assert (Hstart :
             run (login m form) w0 =
             match DB.user_by_email (login_email form) d with
             | None =>
                 (Return (redirect "/login"),
                  set_flashed
                    [("User with email " ++ login_email form
                      ++ " doesn't exist!<br> <a href=/register>Register now!</a>",
                      "error")] w0)
             | Some user =>
                 if check_password_hash (User.password user) (login_password form)
                 then (Return (redirect "/"), set_session_uid (Some (User.id user)) w0)
                 else (Return (redirect "/login"),
                       set_flashed [("Email and password incorrect!!", "error")] w0)
             end).
  { subst w0.
    unfold run, login, is_authenticated, current_user, bind, request_world.
    cbn -[logged_in DB.user_by_email String.append]. rewrite Hanon.
    cbn -[logged_in DB.user_by_email String.append]. rewrite Hvalid.
    cbn -[logged_in DB.user_by_email String.append].
    destruct (DB.user_by_email (login_email form) d) as [user|]; [|reflexivity].
    destruct (check_password_hash _ _); reflexivity. }
  split; [|split].
  - intros u Huniq Hin Hemail Hcheck. rewrite Hstart, Hemail.
    rewrite (user_by_email_unique u d Huniq Hin), Hcheck.
    split; [reflexivity|].
    destruct (load_user_member u d Hin) as [u' Hu']. cbn [logged_in].
    rewrite Hu'. discriminate.
  - intros Hnot. rewrite Hstart. rewrite (user_by_email_none _ _ Hnot).
    split; [reflexivity | exact Hanon].
  - intros u Huniq Hin Hemail Hcheck. rewrite Hstart, Hemail.
    rewrite (user_by_email_unique u d Huniq Hin), Hcheck.
    split; [reflexivity | exact Hanon].
Qed.

(** What [register] does, by case. *)
Lemma register_run (m : http_method) (form : RegisterForm) (salt : string)
    (d : DB.t) (sess : option Z) (t : Z) :
  let w0 := request_world d sess t None in
  run (register m form salt) w0 =
  match logged_in sess d with
  | Some _ => (Return (redirect "/"), w0)
  | None =>
      if validate_on_submit m (validate_register form) then
        match DB.user_by_email (register_email form) d with
        | Some user =>
            (Return (redirect "/register"),
             set_flashed
               [("User with email " ++ User.email user
                 ++ " already exists!!<br> <a href=/login>Login now!</a>", "error")]
               w0)
        | None =>
            let d' := DB.with_users
                        (fun l => (l ++ [new_user_for d form salt])%list) d in
            (Return (redirect "/login"),
             mkWorld d' d' sess
               [("Thanks for registering! You may login now.", "success")] t None)
        end
      else (Return (render_template "register.html" [("form", VForm)]), w0)
  end.
Proof.
  unfold run, register, is_authenticated, current_user, bind, request_world.
  cbn -[logged_in DB.user_by_email String.append DB.next_id].
  destruct (logged_in sess d); [reflexivity|].
  cbn -[logged_in DB.user_by_email String.append DB.next_id].
  destruct (validate_on_submit m (validate_register form)); [|reflexivity].
  cbn -[logged_in DB.user_by_email String.append DB.next_id].
  destruct (DB.user_by_email (register_email form) d); reflexivity.
Qed.

(** A request that cannot reach the store's writes leaves the rows alone. *)
Lemma register_taken_writes_nothing (m : http_method) (form : RegisterForm)
    (salt : string) (d : DB.t) (sess : option Z) (t : Z) (f : option nat) :
  In (register_email form) (map User.email (DB.users d)) ->
  persisted (snd (run (register m form salt) (request_world d sess t f))) = d.
Proof.
  intros Htaken.
  destruct (user_by_email_some _ _ Htaken) as (user & Hfind & _ & _).
  unfold run, register, is_authenticated, current_user, bind, request_world.
  cbn -[logged_in DB.user_by_email String.append DB.next_id].
  destruct (logged_in sess d); [reflexivity|].
  cbn -[logged_in DB.user_by_email String.append DB.next_id].
  destruct (validate_on_submit m (validate_register form)); [|reflexivity].
  cbn -[logged_in DB.user_by_email String.append DB.next_id].
  rewrite Hfind. reflexivity.
Qed.

(** C5: with an address some user already has, no request to [register]
    writes a row, and the validated submission of an anonymous visitor is
    answered with the conflict message; with an address no user has, such
    a submission appends one account, holding the hash
    [generate_password_hash] made of the password with a salt of length 8
    and a confirmation flag that is false, and touches no other table. *)
Theorem register_cases (m : http_method) (form : RegisterForm) (salt : string)
    (d : DB.t) (sess : option Z) (t : Z) :
  let w0 := request_world d sess t None in
  (In (register_email form) (map User.email (DB.users d)) ->
     (forall sess' t' f',
         persisted (snd (run (register m form salt) (request_world d sess' t' f'))) = d)
     /\ (logged_in sess d = None ->
         validate_on_submit m (validate_register form) = true ->
         run (register m form salt) w0
         = (Return (redirect "/register"),
            set_flashed
              [("User with email " ++ register_email form
                ++ " already exists!!<br> <a href=/login>Login now!</a>", "error")]
              w0)))
  /\ (~ In (register_email form) (map User.email (DB.users d)) ->
      logged_in sess d = None ->
      validate_on_submit m (validate_register form) = true ->
      let (r, w) := run (register m form salt) w0 in
      let account := new_user_for d form salt in
      r = Return (redirect "/login")
      /\ flashed w = [("Thanks for registering! You may login now.", "success")]
      /\ DB.users (persisted w) = (DB.users d ++ [account])%list
      /\ User.email account = register_email form
      /\ User.password account
         = generate_password_hash (register_password form) "pbkdf2:sha256" 8 salt
      /\ User.email_confirmed account = false
      /\ DB.items (persisted w) = DB.items d
      /\ DB.cart (persisted w) = DB.cart d
      /\ DB.orders (persisted w) = DB.orders d
      /\ DB.ordered_items (persisted w) = DB.ordered_items d).
Proof.
  intros w0. split.
  - intros Htaken. split.
    + intros sess' t' f'. now apply register_taken_writes_nothing.
    + intros Hanon Hvalid. subst w0. rewrite register_run. cbv zeta.
      rewrite Hanon, Hvalid.
      destruct (user_by_email_some _ _ Htaken) as (user & Hfind & Hemail & _).
      rewrite Hfind, Hemail. reflexivity.
  - intros Hfresh Hanon Hvalid. subst w0. rewrite register_run. cbv zeta.
    rewrite Hanon, Hvalid, (user_by_email_none _ _ Hfresh).
    repeat split.
Qed.

(** X12: [register] keeps addresses unique. *)
Lemma register_keeps_emails_unique (m : http_method) (form : RegisterForm)
    (salt : string) (d : DB.t) (sess : option Z) (t : Z) :
  emails_unique d ->
  emails_unique (persisted (snd (run (register m form salt)
                                      (request_world d sess t None)))).
Proof.
  intros Huniq. rewrite register_run. cbv zeta.
  destruct (logged_in sess d); [exact Huniq|].
  destruct (validate_on_submit m (validate_register form)); [|exact Huniq].
  destruct (DB.user_by_email (register_email form) d) as [user|] eqn:Efind;
    [exact Huniq|].
  unfold emails_unique in *. cbn [persisted snd DB.users DB.with_users].
  rewrite map_app. cbn [map new_user_for User.email].
  apply NoDup_app; [exact Huniq | repeat constructor; intros [] | ].
  intros e Hin [<- | []].
  destruct (user_by_email_some _ _ Hin) as (user & Hfind & _).
  congruence.
Qed.
End Identity.

Lemma login_cases_witness :
  let w0 := request_world shop None 1000 None in
  (run (login (H := test_collaborators) POST (mkLoginForm "alice@example.com" "wonderland")) w0
   = (Return (redirect "/"), set_session_uid (Some 1) w0))
  /\ (run (login (H := test_collaborators) POST (mkLoginForm "carol@example.com" "x")) w0
      = (Return (redirect "/login"),
         set_flashed
           [("User with email carol@example.com doesn't exist!<br> <a href=/register>Register now!</a>",
             "error")] w0))
  /\ (run (login (H := test_collaborators) POST (mkLoginForm "alice@example.com" "builder")) w0
      = (Return (redirect "/login"),
         set_flashed [("Email and password incorrect!!", "error")] w0)).
Proof.
  assert (Huniq : emails_unique shop).
  { unfold emails_unique. cbn. repeat constructor; cbn; intuition discriminate. }
  split; [|split].
  - exact (proj1 (proj1 (login_cases (H := test_collaborators) POST
                           (mkLoginForm "alice@example.com" "wonderland")
                           shop None 1000 None eq_refl eq_refl)
                        alice Huniq (or_introl eq_refl) eq_refl eq_refl)).
  - refine (proj1 (proj1 (proj2 (login_cases (H := test_collaborators) POST
                           (mkLoginForm "carol@example.com" "x")
                           shop None 1000 None eq_refl eq_refl)) _)).
    cbn. intuition discriminate.
  - exact (proj1 (proj2 (proj2 (login_cases (H := test_collaborators) POST
                           (mkLoginForm "alice@example.com" "builder")
                           shop None 1000 None eq_refl eq_refl))
                        alice Huniq (or_introl eq_refl) eq_refl eq_refl)).
Defined.

Lemma register_cases_witness :
  let w0 := request_world shop None 1000 None in
  (run (register (H := test_collaborators) POST
          (mkRegisterForm "alice again" "alice@example.com" "pw" "555-0102") "salt") w0
   = (Return (redirect "/register"),
      set_flashed
        [("User with email alice@example.com already exists!!<br> <a href=/login>Login now!</a>",
          "error")] w0))
  /\ DB.users (persisted (snd (run (register (H := test_collaborators) POST
                   (mkRegisterForm "carol" "carol@example.com" "pw" "555-0102") "salt") w0)))
     = [alice; bob; User.mk 3 "carol" "carol@example.com" "salt$pw" "555-0102" false].
Proof.
  split.
  - refine (proj2 (proj1 (register_cases (H := test_collaborators) POST
              (mkRegisterForm "alice again" "alice@example.com" "pw" "555-0102") "salt"
              shop None 1000) _) eq_refl eq_refl).
    cbn. auto.
  - assert (Hfresh : ~ In "carol@example.com" (map User.email (DB.users shop)))
      by (cbn; intuition discriminate).
    pose proof (proj2 (register_cases (H := test_collaborators) POST
              (mkRegisterForm "carol" "carol@example.com" "pw" "555-0102") "salt"
              shop None 1000) Hfresh eq_refl eq_refl) as Hnew.
    destruct (run (register (H := test_collaborators) POST
                (mkRegisterForm "carol" "carol@example.com" "pw" "555-0102") "salt")
                (request_world shop None 1000 None)) as [r w].
    exact (proj1 (proj2 (proj2 Hnew))).
Defined.

(** ** The cart page *)

Lemma cart_loop_ok (d : DB.t) (rows : list Cart.t) :
  Forall (fun c => cart_item c d <> None) rows ->
  forall (l : cart_locals) (w : World),
    cart_loop d rows l w
    = (Return (mkLocals (price l + cart_total d rows)
                        (price_ids l ++ map (entry_price_id d) rows)
                        (items l ++ map (fun c => cart_item c d) rows)
                        (quantity l ++ map Cart.quantity rows)), w).
Proof.
  induction 1 as [|c rows Hc _ IH]; intros l w.
  - cbn. rewrite !app_nil_r, Z.add_0_r. now destruct l.
  - cbn [cart_loop]. unfold bind, cart_step.
    unfold cart_total, entry_price_id, entry_price in *. cbn [map Zsum fold_right].
    destruct (cart_item c d) as [it|] eqn:Eit; [|congruence].
    cbn [ret]. rewrite IH. cbn [price price_ids items quantity].
    rewrite <- !app_assoc. cbn [app].
    do 2 f_equal. f_equal. unfold Zsum. lia.
Qed.

Lemma own_cart_rows_have_items (d : DB.t) (u : Z) :
  own_cart_items_exist u d = true ->
  Forall (fun c => cart_item c d <> None) (DB.cart_of u d).
Proof.
  unfold own_cart_items_exist. rewrite forallb_forall. intros Hall.
  apply Forall_forall. intros c Hc.
  specialize (Hall c Hc). destruct (cart_item c d); [discriminate | discriminate].
Qed.

(** Integrity of the whole cart table gives it for each user's cart. *)
Lemma cart_items_exist_own (d : DB.t) (u : Z) :
  cart_items_exist d = true -> own_cart_items_exist u d = true.
Proof.
  unfold cart_items_exist, own_cart_items_exist, DB.cart_of.
  rewrite !forallb_forall. intros Hall c Hc.
  apply filter_In in Hc. now apply Hall.
Qed.

(** C8, as amended: for a logged-in user whose own cart entries each refer
    to a catalog item, whatever the entries of other users refer to, the
    page gets the items and the quantities of the user's cart entries,
    entry by entry, and a price that is the sum over those entries of
    item.price * quantity. *)
Theorem cart_price_is_sum_of_own_entries (d : DB.t) (sess : option Z) (u : User.t)
    (t : Z) (f : option nat) :
  logged_in sess d = Some u ->
  own_cart_items_exist (User.id u) d = true ->
  let rows := DB.cart_of (User.id u) d in
  let shown := map (fun c => cart_item c d) rows in
  let counts := map Cart.quantity rows in
  run cart (request_world d sess t f)
  = (Return (render_template "cart.html"
               [("items", VItems shown);
                ("price", VNum (cart_total d rows));
                ("price_ids", VPriceIds (map (entry_price_id d) rows));
                ("quantity", VNums counts)]),
     request_world d sess t f)
  /\ combine shown counts = map (fun c => (cart_item c d, Cart.quantity c)) rows
  /\ Forall (fun c => exists it, cart_item c d = Some it) rows.
Proof.
  intros Hu Hitems rows shown counts.
  pose proof (own_cart_rows_have_items d (User.id u) Hitems) as Hrows.
  split; [|split].
  - unfold run, cart, call, login_required, cart_view.
    unfold is_authenticated, current_user_cart, current_user, bind, request_world.
    cbn -[logged_in DB.cart_of cart_loop]. rewrite Hu.
    cbn -[logged_in DB.cart_of cart_loop]. rewrite Hu.
    cbn -[logged_in DB.cart_of cart_loop].
    rewrite (cart_loop_ok d _ Hrows). reflexivity.
  - subst shown counts. induction rows as [|c l IH]; cbn; [reflexivity | now rewrite IH].
  - eapply Forall_impl; [|exact Hrows]. cbn beta. intros c Hc.
    destruct (cart_item c d) as [it|]; [now exists it | congruence].
Qed.

(** The fixture with one more entry, in the cart of the second user, that
    refers to no item: the first user's page is not affected. *)
Lemma cart_price_is_sum_of_own_entries_witness :
  let d := DB.with_cart (fun l => (l ++ [Cart.mk 3 2 7 1])%list) shop in
  cart_items_exist d = false
  /\ run cart (request_world d (Some 1) 1000 None)
     = (Return (render_template "cart.html"
                  [("items", VItems [Some apple; Some bag]);
                   ("price", VNum 11);
                   ("price_ids", VPriceIds [("price_apple", 2); ("price_bag", 1)]);
                   ("quantity", VNums [2; 1])]),
        request_world d (Some 1) 1000 None).
Proof.
  split; [reflexivity|].
  exact (proj1 (cart_price_is_sum_of_own_entries
                  (DB.with_cart (fun l => (l ++ [Cart.mk 3 2 7 1])%list) shop)
                  (Some 1) alice 1000 None eq_refl eq_refl)).
Defined.

(** C8, as written, fails: with an entry in the user's own cart that refers
    to no catalog item, the page computes no price and renders no list;
    the request ends in an AttributeError. *)
Lemma cart_page_fails_on_own_missing_item :
  let d := DB.with_cart (fun l => (l ++ [Cart.mk 3 1 7 1])%list) shop in
  let w0 := request_world d (Some 1) 1000 None in
  logged_in (Some 1) d = Some alice
  /\ In (Cart.mk 3 1 7 1) (DB.cart_of (User.id alice) d)
  /\ fst (run cart w0)
     = Raise (AttributeError "'NoneType' object has no attribute 'price_id'")
  /\ (forall context,
        fst (run cart w0) <> Return (render_template "cart.html" context)).
Proof.
  cbv zeta. split; [reflexivity|]. split; [cbn; auto|]. split; [reflexivity|].
  intros context. discriminate.
Qed.

(** ** Catalog search *)

Lemma list_ascii_of_string_app (a b : string) :
  list_ascii_of_string (a ++ b)
  = (list_ascii_of_string a ++ list_ascii_of_string b)%list.
Proof. induction a as [|c a IH]; cbn; [reflexivity | now rewrite IH]. Qed.

(** The equation of a leading [%]. *)
Lemma like_percent (p s : list ascii) :
  like_chars (percent :: p) s
  = (like_chars p s
     || match s with [] => false | _ :: s' => like_chars (percent :: p) s' end)%bool.
Proof. destruct s; reflexivity. Qed.

(** The equation of a leading character that is no wildcard. *)
Lemma like_plain_char (c : ascii) (p s : list ascii) :
  is_wildcard c = false ->
  like_chars (c :: p) s
  = match s with
    | [] => false
    | d :: s' => (Ascii.eqb (lower c) (lower d) && like_chars p s')%bool
    end.
Proof.
  unfold is_wildcard. intros Hc. apply orb_false_iff in Hc. destruct Hc as [Hp Hu].
  cbn [like_chars]. rewrite Hp. destruct s as [|d s']; [reflexivity|].
  now rewrite Hu.
Qed.

Lemma like_trailing_percent (s : list ascii) : like_chars [percent] s = true.
Proof.
  induction s as [|d s' IH]; rewrite like_percent; [reflexivity|].
  rewrite IH. apply orb_true_r.
Qed.

(** A plain pattern followed by [%] matches the strings it is a prefix of. *)
Lemma like_plain_prefix (q : list ascii) :
  forallb (fun c => negb (is_wildcard c)) q = true ->
  forall s, like_chars (q ++ [percent]) s = prefix_ci q s.
Proof.
  induction q as [|c q IH]; intros Hplain s.
  - cbn [app prefix_ci]. rewrite like_trailing_percent. now destruct s.
  - cbn [forallb] in Hplain. apply andb_true_iff in Hplain. destruct Hplain as [Hc Hq].
    apply negb_true_iff in Hc. cbn [app]. rewrite (like_plain_char _ _ _ Hc).
    destruct s as [|d s']; [reflexivity|]. cbn [prefix_ci]. now rewrite IH.
Qed.

(** A plain pattern between two [%] matches the strings it occurs in. *)
Lemma like_plain_occurs (q : list ascii) :
  forallb (fun c => negb (is_wildcard c)) q = true ->
  forall s, like_chars (percent :: q ++ [percent]) s = occurs_ci q s.
Proof.
  intros Hplain s. induction s as [|d s' IH].
  - rewrite like_percent, (like_plain_prefix q Hplain). cbn [occurs_ci]. reflexivity.
  - rewrite like_percent, (like_plain_prefix q Hplain), IH. reflexivity.
Qed.

Lemma like_plain_query (name q : string) :
  plain_query q = true ->
  like name ("%" ++ q ++ "%") = contains_ci name q.
Proof.
  intros Hplain. unfold like, contains_ci.
  change ("%" ++ q ++ "%") with (String percent (q ++ "%")).
  cbn [list_ascii_of_string]. rewrite list_ascii_of_string_app.
  now apply like_plain_occurs.
Qed.




(** * Further properties of the routes *)

(** ** Protected routes *)

Lemma login_required_anonymous (v : pyfunc response) (kwargs : list (string * value))
    (w : World) :
  logged_in (session_uid w) (pending w) = None ->
  run (call (login_required v) kwargs) w = (Return (abort 401), w).
Proof.
  intros Hanon. unfold run, call, login_required. cbn [accepts find body func_name].
  assert (Hargs : find (fun kv : string * value => negb true) kwargs = None).
  { induction kwargs as [|kv l IH]; [reflexivity | exact IH]. }
  rewrite Hargs. unfold is_authenticated, current_user, bind, ret.
  now rewrite Hanon.
Qed.

Lemma login_required_logged_in (v : pyfunc response) (w : World) (u : User.t) :
  logged_in (session_uid w) (pending w) = Some u ->
  run (call (login_required v) []) w = run (call v []) w.
Proof.
  intros Hu. unfold run, call at 1, login_required. cbn [accepts find body func_name].
  unfold is_authenticated, current_user, bind, ret. now rewrite Hu.
Qed.

Section Protected.
Context `{Outside}.

(** X1: Every route below [@login_required] answers a caller who is not
    logged in with 401 and leaves the world as it is: nothing is read from
    the cart, written, flashed or mailed. *)
Theorem anonymous_caller_turned_away (d : DB.t) (sess : option Z) (t : Z)
    (f : option nat) (m : http_method) (id quantity : string) :
  logged_in sess d = None ->
  let w0 := request_world d sess t f in
  run place_order w0 = (Return (abort 401), w0)
  /\ run cart w0 = (Return (abort 401), w0)
  /\ run (checkout m) w0 = (Return (abort 401), w0)
  /\ run (call orders []) w0 = (Return (abort 401), w0)
  /\ run logout w0 = (Return (abort 401), w0)
  /\ run resend w0 = (Return (abort 401), w0)
  /\ run (remove id quantity) w0 = (Return (abort 401), w0).
Proof.
  intros Hanon w0.
  repeat split; apply login_required_anonymous; exact Hanon.
Qed.
End Protected.

Lemma anonymous_caller_turned_away_witness :
  let w0 := request_world shop None 1000 None in
  run place_order w0 = (Return (abort 401), w0)
  /\ run cart w0 = (Return (abort 401), w0)
  /\ run (checkout POST) w0 = (Return (abort 401), w0)
  /\ run (call orders []) w0 = (Return (abort 401), w0)
  /\ run logout w0 = (Return (abort 401), w0)
  /\ run (resend (H := test_outside)) w0 = (Return (abort 401), w0)
  /\ run (remove (H := test_outside) "1" "2") w0 = (Return (abort 401), w0).
Proof.
  exact (anonymous_caller_turned_away (H := test_outside) shop None 1000 None POST
           "1" "2" eq_refl).
Defined.

(** ** Order placement under store failures *)

Lemma place_order_run_late_fault (d : DB.t) (sess : option Z) (u : User.t)
    (t : Z) (j : nat) :
  logged_in sess d = Some u ->
  DB.cart_of (User.id u) d <> [] ->
  run place_order
    (request_world d sess t
       (Some (2 * List.length (DB.cart_of (User.id u) d) + 3 + j)%nat))
  = (Return (redirect "/orders"),
     mkWorld (placed d u t) (placed d u t) sess
       [("Order placed successfully! Cash on Delivery selected.", "success")] t (Some j)).
Proof.
  intros Hu Hcart.
  destruct (DB.cart_of (User.id u) d) as [|c0 rows0] eqn:Erows; [congruence|].
  replace (2 * List.length (c0 :: rows0) + 3 + j)%nat
    with (S (S (2 * List.length (c0 :: rows0) + S j))) by lia.
  unfold run, place_order, call, login_required, place_order_view.
  unfold is_authenticated, current_user_cart, current_user_id, current_user,
    try_except, bind, request_world.
  step. rewrite Hu. step. rewrite Hu. step. rewrite Erows. step. rewrite Hu.
  step. same_user d. rewrite Hu. step. same_user d. rewrite Erows.
  match goal with
  | |- context [for_each ?rows (move_to_order ?o) ?w] =>
      rewrite (transfer_loop_late o rows w (S j) eq_refl)
  end.
  step. unfold placed, with_new_order. rewrite Erows. reflexivity.
Qed.

(** X2: Whatever write of the store fails, if any, [place_order] for a user
    with a non-empty cart ends in one of two ways: the whole cart is
    transferred, or the request is answered with the error redirect and
    neither a cart entry nor a line item, user or catalog row has changed,
    the order table being what it was or longer by the one new order.  A
    part of the cart is never transferred. *)
Theorem place_order_never_transfers_part (d : DB.t) (sess : option Z) (u : User.t)
    (t : Z) (f : option nat) :
  logged_in sess d = Some u ->
  DB.cart_of (User.id u) d <> [] ->
  let (r, w) := run place_order (request_world d sess t f) in
  (r = Return (redirect "/orders") /\ persisted w = placed d u t)
  \/ (r = Return (redirect "/cart")
      /\ DB.cart (persisted w) = DB.cart d
      /\ DB.ordered_items (persisted w) = DB.ordered_items d
      /\ DB.users (persisted w) = DB.users d
      /\ DB.items (persisted w) = DB.items d
      /\ (DB.orders (persisted w) = DB.orders d
          \/ DB.orders (persisted w) = (DB.orders d ++ [new_order_for d u t])%list)).
Proof.
  intros Hu Hcart.
  destruct f as [k|]; [|rewrite (place_order_run_ok d sess u t Hu Hcart); now left].
  destruct (Nat.lt_ge_cases k 2) as [Hearly | Hk2].
  - rewrite (place_order_run_early_fault d sess u t k Hu Hcart Hearly).
    right. cbn [persisted]. repeat split. now left.
  - destruct (Nat.lt_ge_cases k (2 * List.length (DB.cart_of (User.id u) d) + 3))
      as [Hmid | Hlate].
    + rewrite (place_order_run_transfer_fault d sess u t k Hu Hcart (conj Hk2 Hmid)).
      right. cbn [persisted]. repeat split. now right.
    + replace k with (2 * List.length (DB.cart_of (User.id u) d) + 3
                      + (k - (2 * List.length (DB.cart_of (User.id u) d) + 3)))%nat by lia.
      rewrite (place_order_run_late_fault d sess u t _ Hu Hcart). now left.
Qed.

Lemma place_order_never_transfers_part_witness :
  let (r, w) := run place_order (request_world shop (Some 1) 1000 (Some 4%nat)) in
  (r = Return (redirect "/orders") /\ persisted w = placed shop alice 1000)
  \/ (r = Return (redirect "/cart")
      /\ DB.cart (persisted w) = DB.cart shop
      /\ DB.ordered_items (persisted w) = DB.ordered_items shop
      /\ DB.users (persisted w) = DB.users shop
      /\ DB.items (persisted w) = DB.items shop
      /\ (DB.orders (persisted w) = DB.orders shop
          \/ DB.orders (persisted w) = (DB.orders shop ++ [new_order_for shop alice 1000])%list)).
Proof.
  refine (place_order_never_transfers_part shop (Some 1) alice 1000 (Some 4%nat) eq_refl _).
  cbn. discriminate.
Defined.

(** ** Order placement and the other rows *)

Lemma key_determines_row {A} (key : A -> Z) (l : list A) (a b : A) :
  NoDup (map key l) -> In a l -> In b l -> key a = key b -> a = b.
Proof.
  induction l as [|x l IH]; [contradiction|].
  cbn [map In]. intros Hnd Ha Hb Hkey. inversion Hnd as [|? ? Hx Hl]; subst.
  destruct Ha as [-> | Ha], Hb as [-> | Hb].
  - reflexivity.
  - exfalso. apply Hx. rewrite Hkey. now apply in_map.
  - exfalso. apply Hx. rewrite <- Hkey. now apply in_map.
  - now apply IH.
Qed.

Lemma filter_filter_keeps {A} (p q : A -> bool) (l : list A) :
  (forall x, In x l -> p x = true -> q x = true) ->
  filter p (filter q l) = filter p l.
Proof.
  induction l as [|x l IH]; intros Hpq; [reflexivity|].
  cbn [filter].
  assert (Hl : forall y, In y l -> p y = true -> q y = true)
    by (intros y Hy; apply Hpq; now right).
  destruct (q x) eqn:Eq.
  - cbn [filter]. now rewrite IH.
  - rewrite IH by exact Hl. destruct (p x) eqn:Ep; [|reflexivity].
    rewrite (Hpq x (or_introl eq_refl) Ep) in Eq. discriminate.
Qed.

Lemma placed_cart_empty (d : DB.t) (u : User.t) (t : Z) :
  DB.cart_of (User.id u) (placed d u t) = [].
Proof.
  unfold DB.cart_of, placed. rewrite transfer_cart.
  change (DB.cart (with_new_order d u t)) with (DB.cart d).
  change (DB.cart_of (User.id u) d)
    with (filter (fun c => Cart.uid c =? User.id u) (DB.cart d)).
  apply cart_emptied.
Qed.

Lemma placed_cart_of_other (d : DB.t) (u : User.t) (t v : Z) :
  cart_keys_unique d ->
  v <> User.id u ->
  DB.cart_of v (placed d u t) = DB.cart_of v d.
Proof.
  intros Hkeys Hv. unfold DB.cart_of at 1, placed. rewrite transfer_cart.
  change (DB.cart (with_new_order d u t)) with (DB.cart d).
  apply filter_filter_keeps. intros r Hr Hrv.
  apply negb_true_iff. destruct (existsb _ _) eqn:Ex; [|reflexivity].
  exfalso. apply existsb_exists in Ex. destruct Ex as (c & Hc & Hid).
  apply Z.eqb_eq in Hid. apply filter_In in Hc. destruct Hc as [Hc Hcu].
  assert (r = c) by (eapply key_determines_row; eauto).
  subst c. apply Z.eqb_eq in Hrv, Hcu. congruence.
Qed.

Lemma placed_orders_of (d : DB.t) (u : User.t) (t v : Z) :
  DB.orders_of v (placed d u t)
  = if User.id u =? v then (DB.orders_of v d ++ [new_order_for d u t])%list
    else DB.orders_of v d.
Proof.
  unfold DB.orders_of, placed. rewrite transfer_orders.
  cbn [with_new_order DB.with_orders DB.orders]. rewrite filter_app.
  cbn [filter new_order_for Order.uid].
  destruct (User.id u =? v); [reflexivity | now rewrite app_nil_r].
Qed.

Lemma placed_logged_in (d : DB.t) (u : User.t) (t : Z) (sess : option Z) :
  logged_in sess (placed d u t) = logged_in sess d.
Proof.
  apply logged_in_same_users. unfold placed. now rewrite transfer_users.
Qed.

(** X4: With unique cart keys, a successful placement leaves the cart entries
    and the orders of every other user as they were. *)
Theorem place_order_spares_other_users (d : DB.t) (sess : option Z) (u : User.t)
    (t v : Z) :
  logged_in sess d = Some u ->
  DB.cart_of (User.id u) d <> [] ->
  cart_keys_unique d ->
  v <> User.id u ->
  let d' := persisted (snd (run place_order (request_world d sess t None))) in
  DB.cart_of v d' = DB.cart_of v d
  /\ DB.orders_of v d' = DB.orders_of v d.
Proof.
  intros Hu Hcart Hkeys Hv.
  rewrite (place_order_run_ok d sess u t Hu Hcart). cbn [snd persisted].
  split; [now apply placed_cart_of_other|].
  rewrite placed_orders_of.
  destruct (User.id u =? v) eqn:E; [|reflexivity].
  apply Z.eqb_eq in E. congruence.
Qed.

(** The fixture with one more entry, in the cart of the second user. *)
Lemma place_order_spares_other_users_witness :
  let d := DB.with_cart (fun l => (l ++ [Cart.mk 3 2 1 4])%list) shop in
  let d' := persisted (snd (run place_order (request_world d (Some 1) 1000 None))) in
  DB.cart_of 2 d' = DB.cart_of 2 d
  /\ DB.orders_of 2 d' = DB.orders_of 2 d.
Proof.
  refine (place_order_spares_other_users
            (DB.with_cart (fun l => (l ++ [Cart.mk 3 2 1 4])%list) shop)
            (Some 1) alice 1000 2 eq_refl _ _ _).
  - cbn. discriminate.
  - unfold cart_keys_unique. cbn. repeat constructor; cbn; intuition discriminate.
  - cbn. discriminate.
Defined.

Lemma place_order_run_empty (d : DB.t) (sess : option Z) (u : User.t)
    (t : Z) (f : option nat) :
  logged_in sess d = Some u ->
  DB.cart_of (User.id u) d = [] ->
  run place_order (request_world d sess t f)
  = (Return (redirect "/cart"),
     set_flashed
       [("Your cart is empty. Please add items to your cart before placing an order.",
         "error")] (request_world d sess t f)).
Proof.
  intros Hu Hcart.
  unfold run, place_order, call, login_required, place_order_view; cbn.
  unfold bind, is_authenticated, current_user_cart, current_user, bind; cbn.
  rewrite Hu; cbn. rewrite Hu; cbn. rewrite Hcart. reflexivity.
Qed.

(** X5: A cart is spent once: after a successful placement, the same user's
    next [place_order] finds the cart empty, is turned down with the
    cart-empty message and writes nothing, whatever the store does. *)
Theorem place_order_twice (d : DB.t) (sess : option Z) (u : User.t)
    (t t' : Z) (f : option nat) :
  logged_in sess d = Some u ->
  DB.cart_of (User.id u) d <> [] ->
  let (r, w) := run place_order (request_world d sess t None) in
  let (r', w') := run place_order (request_world (persisted w) (session_uid w) t' f) in
  r = Return (redirect "/orders")
  /\ r' = Return (redirect "/cart")
  /\ flashed w'
     = [("Your cart is empty. Please add items to your cart before placing an order.",
         "error")]
  /\ persisted w' = persisted w.
Proof.
  intros Hu Hcart.
  rewrite (place_order_run_ok d sess u t Hu Hcart). cbn [persisted session_uid].
  rewrite (place_order_run_empty (placed d u t) sess u t' f).
  - repeat split.
  - now rewrite placed_logged_in.
  - apply placed_cart_empty.
Qed.

Lemma place_order_twice_witness :
  let (r, w) := run place_order (request_world shop (Some 1) 1000 None) in
  let (r', w') := run place_order (request_world (persisted w) (session_uid w) 1060 None) in
  r = Return (redirect "/orders")
  /\ r' = Return (redirect "/cart")
  /\ flashed w'
     = [("Your cart is empty. Please add items to your cart before placing an order.",
         "error")]
  /\ persisted w' = persisted w.
Proof.
  refine (place_order_twice shop (Some 1) alice 1000 1060 None eq_refl _).
  cbn. discriminate.
Defined.

(** X6: The page [place_order] redirects to lists the new order: after a
    successful placement, [orders] shows the user's earlier orders followed
    by the one just created. *)
Theorem orders_page_after_placement (d : DB.t) (sess : option Z) (u : User.t)
    (t t' : Z) (f : option nat) :
  logged_in sess d = Some u ->
  DB.cart_of (User.id u) d <> [] ->
  let (r, w) := run place_order (request_world d sess t None) in
  r = Return (redirect (url_for "orders"))
  /\ fst (run (call orders []) (request_world (persisted w) (session_uid w) t' f))
     = Return (render_template "orders.html"
                 [("orders", VOrders (DB.orders_of (User.id u) d
                                      ++ [new_order_for d u t])%list)]).
Proof.
  intros Hu Hcart.
  rewrite (place_order_run_ok d sess u t Hu Hcart). cbn [persisted session_uid].
  split; [reflexivity|].
  rewrite (orders_route_renders (placed d u t) sess u t' f)
    by (now rewrite placed_logged_in).
  cbn [fst]. rewrite placed_orders_of, Z.eqb_refl. reflexivity.
Qed.

Lemma orders_page_after_placement_witness :
  let (r, w) := run place_order (request_world shop (Some 1) 1000 None) in
  r = Return (redirect (url_for "orders"))
  /\ fst (run (call orders []) (request_world (persisted w) (session_uid w) 1060 None))
     = Return (render_template "orders.html"
                 [("orders", VOrders (DB.orders_of (User.id alice) shop
                                      ++ [new_order_for shop alice 1000])%list)]).
Proof.
  refine (orders_page_after_placement shop (Some 1) alice 1000 1060 None eq_refl _).
  cbn. discriminate.
Defined.

(** ** Sessions *)

Section Sessions.
Context `{Collaborators}.

(** What [login] does, by case. *)
Lemma login_run (m : http_method) (form : LoginForm) (d : DB.t)
    (sess : option Z) (t : Z) (f : option nat) :
  let w0 := request_world d sess t f in
  run (login m form) w0 =
  match logged_in sess d with
  | Some _ => (Return (redirect "/"), w0)
  | None =>
      if validate_on_submit m (validate_login form) then
        match DB.user_by_email (login_email form) d with
        | None =>
            (Return (redirect "/login"),
             set_flashed
               [("User with email " ++ login_email form
                 ++ " doesn't exist!<br> <a href=/register>Register now!</a>",
                 "error")] w0)
        | Some user =>
            if check_password_hash (User.password user) (login_password form)
            then (Return (redirect "/"), set_session_uid (Some (User.id user)) w0)
            else (Return (redirect "/login"),
                  set_flashed [("Email and password incorrect!!", "error")] w0)
        end
      else (Return (render_template "login.html" [("form", VForm)]), w0)
  end.
Proof.
  unfold run, login, is_authenticated, current_user, bind, request_world.
  cbn -[logged_in DB.user_by_email String.append].
  destruct (logged_in sess d); [reflexivity|].
  cbn -[logged_in DB.user_by_email String.append].
  destruct (validate_on_submit m (validate_login form)); [|reflexivity].
  cbn -[logged_in DB.user_by_email String.append].
  destruct (DB.user_by_email (login_email form) d) as [user|]; [|reflexivity].
  destruct (check_password_hash _ _); reflexivity.
Qed.

(** X9: A visitor who is already logged in is sent home by [login] and by
    [register] before the form is looked at: the session stays with the
    user it belongs to, whoever the form names, and no account is created.
    A request that is no valid submission gets the login form back.  In
    none of these cases is anything flashed or written. *)
Theorem login_and_register_guards (m : http_method) (form : LoginForm)
    (rform : RegisterForm) (salt : string) (d : DB.t) (sess : option Z)
    (t : Z) (f : option nat) :
  let w0 := request_world d sess t f in
  (forall u, logged_in sess d = Some u ->
     run (login m form) w0 = (Return (redirect "/"), w0)
     /\ run (register m rform salt) w0 = (Return (redirect "/"), w0))
  /\ (logged_in sess d = None ->
      validate_on_submit m (validate_login form) = false ->
      run (login m form) w0
      = (Return (render_template "login.html" [("form", VForm)]), w0)).
Proof.
  intros w0. split.
  - intros u Hu. split.
    + subst w0. rewrite login_run. cbv zeta. now rewrite Hu.
    + subst w0. unfold run, register, is_authenticated, current_user, bind, request_world.
      cbn -[logged_in]. now rewrite Hu.
  - intros Hanon Hinvalid. subst w0. rewrite login_run. cbv zeta.
    now rewrite Hanon, Hinvalid.
Qed.

Lemma user_by_email_appended (e : string) (u : User.t) (d : DB.t) :
  ~ In e (map User.email (DB.users d)) ->
  User.email u = e ->
  DB.user_by_email e (DB.with_users (fun l => (l ++ [u])%list) d) = Some u.
Proof.
  intros Hfresh He. unfold DB.user_by_email. cbn [DB.with_users DB.users].
  induction (DB.users d) as [|r rest IH]; cbn [app find map In] in *.
  - now rewrite He, String.eqb_refl.
  - destruct (String.eqb (User.email r) e) eqn:E.
    + apply String.eqb_eq in E. tauto.
    + apply IH. tauto.
Qed.

(** X10: Registration and login fit together: when [check_password_hash]
    accepts the hash [generate_password_hash] made of a password, a
    visitor who registers a fresh address and then logs in with the same
    address and password is logged in as the new account. *)
Theorem register_then_login (form : RegisterForm) (salt : string) (d : DB.t)
    (t t' : Z) (f : option nat) :
  ~ In (register_email form) (map User.email (DB.users d)) ->
  validate_register form = true ->
  validate_login (mkLoginForm (register_email form) (register_password form)) = true ->
  check_password_hash
    (generate_password_hash (register_password form) "pbkdf2:sha256" 8 salt)
    (register_password form) = true ->
  let (r, w) := run (register POST form salt) (request_world d None t None) in
  let (r', w') :=
    run (login POST (mkLoginForm (register_email form) (register_password form)))
        (request_world (persisted w) (session_uid w) t' f) in
  r = Return (redirect (url_for "login"))
  /\ r' = Return (redirect (url_for "home"))
  /\ session_uid w' = Some (User.id (new_user_for d form salt))
  /\ logged_in (session_uid w') (persisted w') = Some (new_user_for d form salt).
Proof.
  intros Hfresh Hvalid Hvalid' Hhash.
  rewrite register_run. cbv zeta. cbn [logged_in validate_on_submit].
  rewrite Hvalid, (user_by_email_none _ _ Hfresh).
  cbn [persisted session_uid].
  rewrite login_run. cbv zeta. cbn [logged_in validate_on_submit login_email login_password].
  rewrite Hvalid'.
  rewrite (user_by_email_appended (register_email form) (new_user_for d form salt) d
             Hfresh eq_refl).
  cbn [new_user_for User.password]. rewrite Hhash.
  cbn [set_session_uid request_world session_uid persisted].
  repeat split.
  unfold logged_in, load_user, DB.get_user. cbn [DB.with_users DB.users User.id].
  assert (Hfind : forall l : list User.t,
             (forall u, In u l -> User.id u < DB.next_id (map User.id (DB.users d))) ->
             find (fun u => User.id u =? DB.next_id (map User.id (DB.users d)))
                  (l ++ [new_user_for d form salt]) = Some (new_user_for d form salt)).
  { induction l as [|x l IH]; intros Hlt; cbn [app find].
    - cbn [new_user_for User.id]. now rewrite Z.eqb_refl.
    - pose proof (Hlt x (or_introl eq_refl)) as Hx.
      destruct (User.id x =? _) eqn:E; [apply Z.eqb_eq in E; lia|].
      apply IH. intros u Hu. apply Hlt. now right. }
  apply Hfind. intros u Hu. apply next_id_above. now apply in_map.
Qed.

(** X11: The conflict is found on the second attempt: once an address is
    registered, a second valid submission with that address, whatever its
    other fields, is answered with the conflict message and the user table
    stays as the first registration left it. *)
Theorem register_twice (form form' : RegisterForm) (salt salt' : string) (d : DB.t)
    (t t' : Z) (f : option nat) :
  ~ In (register_email form) (map User.email (DB.users d)) ->
  validate_register form = true ->
  validate_register form' = true ->
  register_email form' = register_email form ->
  let (r, w) := run (register POST form salt) (request_world d None t None) in
  let (r', w') := run (register POST form' salt')
                      (request_world (persisted w) (session_uid w) t' f) in
  r = Return (redirect "/login")
  /\ r' = Return (redirect "/register")
  /\ flashed w'
     = [("User with email " ++ register_email form
         ++ " already exists!!<br> <a href=/login>Login now!</a>", "error")]
  /\ persisted w' = persisted w
  /\ DB.users (persisted w') = (DB.users d ++ [new_user_for d form salt])%list.
Proof.
  intros Hfresh Hvalid Hvalid' Hsame.
  rewrite register_run. cbv zeta. cbn [logged_in validate_on_submit].
  rewrite Hvalid, (user_by_email_none _ _ Hfresh).
  cbn [persisted session_uid].
  unfold run, register, is_authenticated, current_user, bind, request_world.
  cbn -[DB.user_by_email String.append DB.next_id new_user_for]. rewrite Hvalid'.
  cbn -[DB.user_by_email String.append DB.next_id new_user_for]. rewrite Hsame.
  rewrite (user_by_email_appended (register_email form) (new_user_for d form salt) d
             Hfresh eq_refl).
  cbn -[String.append DB.next_id]. repeat split.
Qed.

(** X13: [logout] ends the session: the logged-in user is redirected to the
    login page with nothing written, and the next request to a protected
    page is answered with 401. *)
Theorem logout_ends_session (d : DB.t) (sess : option Z) (u : User.t)
    (t t' : Z) (f f' : option nat) :
  logged_in sess d = Some u ->
  let w0 := request_world d sess t f in
  let (r, w) := run logout w0 in
  r = Return (redirect "/login")
  /\ w = set_session_uid None w0
  /\ run cart (request_world (persisted w) (session_uid w) t' f')
     = (Return (abort 401), request_world d None t' f').
Proof.
  intros Hu w0. subst w0.
  rewrite (login_required_logged_in logout_view _ u) by exact Hu.
  cbn. repeat split.
Qed.
End Sessions.

Lemma login_and_register_guards_witness :
  let w0 := request_world shop (Some 2) 1000 None in
  run (login (H := test_collaborators) POST (mkLoginForm "alice@example.com" "wonderland")) w0
  = (Return (redirect "/"), w0)
  /\ run (login (H := test_collaborators) GET (mkLoginForm "alice@example.com" "wonderland"))
         (request_world shop None 1000 None)
     = (Return (render_template "login.html" [("form", VForm)]),
        request_world shop None 1000 None).
Proof.
  split.
  - exact (proj1 (proj1 (login_and_register_guards (H := test_collaborators) POST
                    (mkLoginForm "alice@example.com" "wonderland")
                    (mkRegisterForm "x" "y" "z" "0") "salt" shop (Some 2) 1000 None)
                   bob eq_refl)).
  - exact (proj2 (login_and_register_guards (H := test_collaborators) GET
                    (mkLoginForm "alice@example.com" "wonderland")
                    (mkRegisterForm "x" "y" "z" "0") "salt" shop None 1000 None)
                 eq_refl eq_refl).
Defined.

Lemma register_then_login_witness :
  let form := mkRegisterForm "carol" "carol@example.com" "pw" "555-0102" in
  let (r, w) := run (register (H := test_collaborators) POST form "salt")
                    (request_world shop None 1000 None) in
  let (r', w') :=
    run (login (H := test_collaborators) POST (mkLoginForm "carol@example.com" "pw"))
        (request_world (persisted w) (session_uid w) 1060 None) in
  r = Return (redirect (url_for "login"))
  /\ r' = Return (redirect (url_for "home"))
  /\ session_uid w' = Some 3
  /\ logged_in (session_uid w') (persisted w')
     = Some (new_user_for (H := test_collaborators) shop form "salt").
Proof.
  refine (register_then_login (H := test_collaborators)
            (mkRegisterForm "carol" "carol@example.com" "pw" "555-0102") "salt"
            shop 1000 1060 None _ eq_refl eq_refl eq_refl).
  cbn. intuition discriminate.
Defined.

Lemma register_twice_witness :
  let form := mkRegisterForm "carol" "carol@example.com" "pw" "555-0102" in
  let form' := mkRegisterForm "carol b" "carol@example.com" "other" "555-0103" in
  let (r, w) := run (register (H := test_collaborators) POST form "salt")
                    (request_world shop None 1000 None) in
  let (r', w') := run (register (H := test_collaborators) POST form' "pepper")
                      (request_world (persisted w) (session_uid w) 1060 None) in
  r = Return (redirect "/login")
  /\ r' = Return (redirect "/register")
  /\ flashed w'
     = [("User with email " ++ register_email form
         ++ " already exists!!<br> <a href=/login>Login now!</a>", "error")]
  /\ persisted w' = persisted w
  /\ DB.users (persisted w')
     = (DB.users shop ++ [new_user_for (H := test_collaborators) shop form "salt"])%list.
Proof.
  refine (register_twice (H := test_collaborators)
            (mkRegisterForm "carol" "carol@example.com" "pw" "555-0102")
            (mkRegisterForm "carol b" "carol@example.com" "other" "555-0103")
            "salt" "pepper" shop 1000 1060 None _ eq_refl eq_refl eq_refl).
  cbn. intuition discriminate.
Defined.

Lemma logout_ends_session_witness :
  let w0 := request_world shop (Some 1) 1000 None in
  let (r, w) := run logout w0 in
  r = Return (redirect "/login")
  /\ w = set_session_uid None w0
  /\ run cart (request_world (persisted w) (session_uid w) 1060 None)
     = (Return (abort 401), request_world shop None 1060 None).
Proof.
  exact (logout_ends_session shop (Some 1) alice 1000 1060 None None eq_refl).
Defined.

(** ** Confirmation, again *)

Section ConfirmationAgain.
Context `{Collaborators}.

(** [loads] accepts a token signed under the key and the salt whose age is
    within the window. *)
Lemma loads_accepts (issued : Z) (email : string) (w : World) :
  0 <= clock w - issued <= 3600 ->
  loads SECRET_KEY (Signed SECRET_KEY "email-confirmation-salt" issued email)
        "email-confirmation-salt" 3600 w
  = (Return email, w).
Proof.
  intros Hage. unfold loads, bind, utcnow.
  rewrite !String.eqb_refl. cbn [andb negb].
  replace (clock w - issued >? 3600) with false by (symmetry; rewrite Z.gtb_ltb; apply Z.ltb_ge; lia).
  replace (clock w - issued <? 0) with false by (symmetry; apply Z.ltb_ge; lia).
  reflexivity.
Qed.

(** What [confirm_email] does with a token [loads] accepts. *)
Lemma confirm_email_run (issued : Z) (email : string) (d : DB.t) (sess : option Z)
    (t : Z) (f : option nat) :
  0 <= t - issued <= 3600 ->
  let w0 := request_world d sess t f in
  run (confirm_email (Signed SECRET_KEY "email-confirmation-salt" issued email)) w0 =
  match DB.user_by_email email d with
  | None => (Raise (none_has_no "email_confirmed"), w0)
  | Some u =>
      if User.email_confirmed u then
        (Return (redirect "/login"),
         set_flashed [("Account already confirmed. Please login.", "success")] w0)
      else
        run (bind (session_save_user (confirmed u) ;;
                   session_commit ;;
                   flash "Email address successfully confirmed!" "success")
                  (fun _ => ret (redirect "/login"))) w0
  end.
Proof.
  intros Hage w0.
  unfold run, confirm_email, try_except. unfold bind at 1 2.
  rewrite (loads_accepts issued email w0) by exact Hage. subst w0.
  cbn -[DB.user_by_email session_save_user session_commit]. unfold bind at 1.
  cbn -[DB.user_by_email session_save_user session_commit].
  destruct (DB.user_by_email email d) as [u|]; [|reflexivity].
  destruct (User.email_confirmed u); reflexivity.
Qed.

(** X14: A confirmation link can be followed again: within the hour, the first
    visit sets the flag of an unconfirmed account, and a second visit with
    the same token is told the account is already confirmed and writes
    nothing. *)
Theorem confirm_email_twice (issued : Z) (email : string) (d : DB.t) (u : User.t)
    (sess : option Z) (t t' : Z) (f : option nat) :
  0 <= t - issued <= 3600 ->
  0 <= t' - issued <= 3600 ->
  DB.user_by_email email d = Some u ->
  User.email_confirmed u = false ->
  let tok := Signed SECRET_KEY "email-confirmation-salt" issued email in
  let (r, w) := run (confirm_email tok) (request_world d sess t None) in
  let (r', w') := run (confirm_email tok)
                      (request_world (persisted w) (session_uid w) t' f) in
  r = Return (redirect "/login")
  /\ flashed w = [("Email address successfully confirmed!", "success")]
  /\ r' = Return (redirect "/login")
  /\ flashed w' = [("Account already confirmed. Please login.", "success")]
  /\ persisted w' = persisted w.
Proof.
  intros Hage Hage' Hfind Hflag tok. subst tok.
  rewrite (confirm_email_run issued email d sess t None Hage). cbv zeta.
  rewrite Hfind, Hflag. cbn -[DB.user_by_email confirm_email].
  rewrite (confirm_email_run issued email _ sess t' f Hage'). cbv zeta.
  assert (Hfound : DB.user_by_email email
                     (DB.with_users
                        (map (fun r => if User.id r =? User.id u then confirmed u else r)) d)
                   = Some (confirmed u)).
  { unfold DB.user_by_email in *. cbn [DB.with_users DB.users].
    apply user_by_email_saved; [exact Hfind|].
    apply find_some in Hfind. destruct Hfind as [_ He]. now apply String.eqb_eq in He. }
  rewrite Hfound. cbn. repeat split.
Qed.

(** X15: With unique user keys, confirming an account rewrites that account's
    row and no other: row by row, the user table afterwards holds the same
    row, except for the account found by the address, which differs in its
    flag only. *)
Theorem confirm_email_rewrites_one_row (issued : Z) (email : string) (d : DB.t)
    (u : User.t) (sess : option Z) (t : Z) :
  0 <= t - issued <= 3600 ->
  DB.user_by_email email d = Some u ->
  User.email_confirmed u = false ->
  user_keys_unique d ->
  let tok := Signed SECRET_KEY "email-confirmation-salt" issued email in
  let d' := persisted (snd (run (confirm_email tok) (request_world d sess t None))) in
  Forall2 (fun r r' => (r <> u /\ r' = r) \/ (r = u /\ r' = confirmed u))
          (DB.users d) (DB.users d')
  /\ DB.items d' = DB.items d /\ DB.cart d' = DB.cart d
  /\ DB.orders d' = DB.orders d /\ DB.ordered_items d' = DB.ordered_items d.
Proof.
  intros Hage Hfind Hflag Hkeys tok d'. subst d' tok.
  rewrite (confirm_email_run issued email d sess t None Hage). cbv zeta.
  rewrite Hfind, Hflag. cbn -[DB.user_by_email].
  split; [|repeat split].
  apply find_some in Hfind. destruct Hfind as [Hin _].
  unfold user_keys_unique in Hkeys.
  assert (Hrows : forall l, (forall r, In r l -> In r (DB.users d)) ->
            Forall2 (fun r r' => (r <> u /\ r' = r) \/ (r = u /\ r' = confirmed u)) l
              (map (fun r => if User.id r =? User.id u then confirmed u else r) l)).
  { induction l as [|r l IH]; intros Hsub; cbn [map]; constructor.
    - destruct (User.id r =? User.id u) eqn:E.
      + right. apply Z.eqb_eq in E. split; [|reflexivity].
        eapply key_determines_row; eauto. apply Hsub. now left.
      + left. split; [|reflexivity]. intros ->. now rewrite Z.eqb_refl in E.
    - apply IH. intros x Hx. apply Hsub. now right. }
  apply Hrows. auto.
Qed.
End ConfirmationAgain.

Lemma confirm_email_twice_witness :
  let tok := Signed "secret" "email-confirmation-salt" 1000 "alice@example.com" in
  let (r, w) := run (confirm_email (H := test_collaborators) tok)
                    (request_world shop None 2000 None) in
  let (r', w') := run (confirm_email (H := test_collaborators) tok)
                      (request_world (persisted w) (session_uid w) 3000 None) in
  r = Return (redirect "/login")
  /\ flashed w = [("Email address successfully confirmed!", "success")]
  /\ r' = Return (redirect "/login")
  /\ flashed w' = [("Account already confirmed. Please login.", "success")]
  /\ persisted w' = persisted w.
Proof.
  refine (confirm_email_twice (H := test_collaborators) 1000 "alice@example.com" shop
            alice None 2000 3000 None _ _ eq_refl eq_refl); lia.
Defined.

Lemma confirm_email_rewrites_one_row_witness :
  let tok := Signed "secret" "email-confirmation-salt" 1000 "alice@example.com" in
  let d' := persisted (snd (run (confirm_email (H := test_collaborators) tok)
                                (request_world shop None 2000 None))) in
  Forall2 (fun r r' => (r <> alice /\ r' = r) \/ (r = alice /\ r' = confirmed alice))
          (DB.users shop) (DB.users d')
  /\ DB.items d' = DB.items shop /\ DB.cart d' = DB.cart shop
  /\ DB.orders d' = DB.orders shop /\ DB.ordered_items d' = DB.ordered_items shop.
Proof.
  refine (confirm_email_rewrites_one_row (H := test_collaborators) 1000
            "alice@example.com" shop alice None 2000 _ eq_refl eq_refl _).
  - lia.
  - unfold user_keys_unique. cbn. repeat constructor; cbn; intuition discriminate.
Defined.

(** ** The cart page and a missing item *)

Lemma cart_loop_dangling (d : DB.t) (rows : list Cart.t) :
  (exists c, In c rows /\ cart_item c d = None) ->
  forall (l : cart_locals) (w : World),
    cart_loop d rows l w = (Raise (none_has_no "price_id"), w).
Proof.
  induction rows as [|c rows IH]; intros (c0 & Hin & Hnone) l w.
  - contradiction.
  - cbn [cart_loop]. unfold bind, cart_step.
    destruct (cart_item c d) as [it|] eqn:Eit; [|reflexivity].
    cbn [ret]. apply IH. exists c0. split; [|exact Hnone].
    destruct Hin as [-> | Hin]; [congruence | exact Hin].
Qed.

(** X7: A cart entry whose item is gone breaks the cart page: if any entry of
    the user's cart refers to no catalog item, [cart] raises an
    AttributeError that nothing catches, instead of showing the other
    entries. *)
Theorem cart_with_missing_item_raises (d : DB.t) (sess : option Z) (u : User.t)
    (t : Z) (f : option nat) (c : Cart.t) :
  logged_in sess d = Some u ->
  In c (DB.cart_of (User.id u) d) ->
  cart_item c d = None ->
  run cart (request_world d sess t f)
  = (Raise (AttributeError "'NoneType' object has no attribute 'price_id'"),
     request_world d sess t f).
Proof.
  intros Hu Hin Hnone.
  unfold run, cart, call, login_required, cart_view.
  unfold is_authenticated, current_user_cart, current_user, bind, request_world.
  cbn -[logged_in DB.cart_of cart_loop]. rewrite Hu.
  cbn -[logged_in DB.cart_of cart_loop]. rewrite Hu.
  cbn -[logged_in DB.cart_of cart_loop].
  rewrite (cart_loop_dangling d (DB.cart_of (User.id u) d)); [reflexivity|].
  exists c. now split.
Qed.

Lemma cart_with_missing_item_raises_witness :
  let d := DB.with_cart (fun l => (l ++ [Cart.mk 3 1 7 1])%list) shop in
  run cart (request_world d (Some 1) 1000 None)
  = (Raise (AttributeError "'NoneType' object has no attribute 'price_id'"),
     request_world d (Some 1) 1000 None).
Proof.
  refine (cart_with_missing_item_raises
            (DB.with_cart (fun l => (l ++ [Cart.mk 3 1 7 1])%list) shop)
            (Some 1) alice 1000 None (Cart.mk 3 1 7 1) eq_refl _ eq_refl).
  cbn. auto.
Defined.

(** ** Routes that only read *)

Lemma cart_loop_world (d : DB.t) (rows : list Cart.t) :
  forall (l : cart_locals) (w : World), snd (cart_loop d rows l w) = w.
Proof.
  induction rows as [|c rows IH]; intros l w; [reflexivity|].
  cbn [cart_loop]. unfold bind, cart_step.
  destruct (cart_item c d); [|reflexivity]. cbn [ret]. apply IH.
Qed.

Section ReadOnly.
Context `{Collaborators}.

(** X8: [home], [search], [login], [logout], [cart], [orders] and [checkout]
    never write: in every world and for every input, the committed rows
    and the session's unit of work are afterwards what they were, and no
    write was attempted.  In particular no request to [checkout] creates an
    order. *)
Theorem reading_routes_write_nothing (w : World) (m : http_method)
    (form : LoginForm) (query : option string) :
  same_store w (snd (run home w))
  /\ same_store w (snd (run (search query) w))
  /\ same_store w (snd (run (login m form) w))
  /\ same_store w (snd (run logout w))
  /\ same_store w (snd (run cart w))
  /\ same_store w (snd (run (call orders []) w))
  /\ same_store w (snd (run (checkout m) w)).
Proof.
  assert (Hrefl : same_store w w) by (repeat split).
  assert (Hguard : forall v : pyfunc response,
             (forall u, logged_in (session_uid w) (pending w) = Some u ->
                        same_store w (snd (run (call v []) w))) ->
             same_store w (snd (run (call (login_required v) []) w))).
  { intros v Hv. destruct (logged_in (session_uid w) (pending w)) as [u|] eqn:Eu.
    - rewrite (login_required_logged_in v w u Eu). exact (Hv u eq_refl).
    - now rewrite (login_required_anonymous v [] w Eu). }
  split; [exact Hrefl|].
  split; [destruct query; exact Hrefl|].
  split.
  { unfold run, login, is_authenticated, current_user, bind.
    cbn -[logged_in DB.user_by_email String.append].
    destruct (logged_in (session_uid w) (pending w)); [exact Hrefl|].
    cbn -[logged_in DB.user_by_email String.append].
    destruct (validate_on_submit m (validate_login form)); [|exact Hrefl].
    cbn -[logged_in DB.user_by_email String.append].
    destruct (DB.user_by_email (login_email form) (pending w)) as [user|];
      [|repeat split].
    destruct (check_password_hash _ _); repeat split. }
  split; [apply Hguard; intros u Hu; repeat split|].
  split.
  { apply Hguard. intros u Hu.
    unfold run, call, cart_view, current_user_cart, current_user, bind.
    cbn -[logged_in DB.cart_of cart_loop]. rewrite Hu.
    cbn -[logged_in DB.cart_of cart_loop].
    pose proof (cart_loop_world (pending w) (DB.cart_of (User.id u) (pending w))
                  (mkLocals 0 [] [] []) w) as Hloop.
    destruct (cart_loop (pending w) (DB.cart_of (User.id u) (pending w))
                (mkLocals 0 [] [] []) w) as [[l|e] w'];
      cbn [snd] in *; subst w'; exact Hrefl. }
  split.
  { apply Hguard. intros u Hu.
    unfold run, call, orders_view, current_user_orders, current_user, bind.
    cbn -[logged_in DB.orders_of]. rewrite Hu. exact Hrefl. }
  apply Hguard. intros u Hu. destruct m; [exact Hrefl|].
  unfold run, call, checkout_view, orders, login_required, orders_view,
    is_authenticated, current_user_id, current_user, bind.
  cbn -[logged_in String.append]. rewrite Hu.
  cbn -[logged_in String.append]. rewrite Hu. exact Hrefl.
Qed.
End ReadOnly.

(** ** Search: the empty query and the case of the query *)

Lemma occurs_ci_nil (s : list ascii) : occurs_ci [] s = true.
Proof. destruct s; reflexivity. Qed.

(** X16: A query that is not given is a bad request; the empty query is not
    treated apart and finds every item: the search page then shows the
    list the home page shows. *)
Theorem search_empty_query_lists_catalog (d : DB.t) (sess : option Z) (t : Z)
    (f : option nat) :
  let w0 := request_world d sess t f in
  run (search None) w0 = (Return (abort 400), w0)
  /\ search_items "" d = DB.items d
  /\ run (search (Some "")) w0
     = (Return (render_template "home.html"
                  [("items", VItemRows (DB.items d)); ("search", VBool true);
                   ("query", VStr "")]), w0)
  /\ run home w0
     = (Return (render_template "home.html" [("items", VItemRows (DB.items d))]), w0).
Proof.
  intros w0.
  assert (E : search_items "" d = DB.items d).
  { unfold search_items. apply filter_all. apply Forall_forall. intros i _.
    rewrite (like_plain_query (Item.name i) "" eq_refl).
    unfold contains_ci. cbn [list_ascii_of_string]. apply occurs_ci_nil. }
  split; [reflexivity|]. split; [exact E|]. split; [|reflexivity].
  subst w0. unfold run, search, bind, get_world, ret, request_world. cbn [pending].
  now rewrite E.
Qed.

Lemma lower_keeps_percent (c : ascii) :
  Ascii.eqb (lower c) percent = Ascii.eqb c percent.
Proof. destruct c as [[] [] [] [] [] [] [] []]; reflexivity. Qed.

Lemma lower_keeps_underscore (c : ascii) :
  Ascii.eqb (lower c) underscore = Ascii.eqb c underscore.
Proof. destruct c as [[] [] [] [] [] [] [] []]; reflexivity. Qed.

(** The equation of a leading character that is not [%]. *)
Lemma like_not_percent (c : ascii) (p s : list ascii) :
  Ascii.eqb c percent = false ->
  like_chars (c :: p) s
  = match s with
    | [] => false
    | d :: s' =>
        ((Ascii.eqb c underscore || Ascii.eqb (lower c) (lower d))
         && like_chars p s')%bool
    end.
Proof. intros Hc. cbn [like_chars]. now rewrite Hc. Qed.

(** Patterns that agree up to case match the same strings. *)
Lemma like_chars_case (p : list ascii) :
  forall p', map lower p = map lower p' ->
  forall s, like_chars p s = like_chars p' s.
Proof.
  induction p as [|c p IH]; intros [|c' p'] Hmap; try discriminate; [reflexivity|].
  cbn [map] in Hmap. injection Hmap as Hc Hp.
  assert (Hpc : Ascii.eqb c percent = Ascii.eqb c' percent)
    by (rewrite <- (lower_keeps_percent c), <- (lower_keeps_percent c'); now rewrite Hc).
  assert (Huc : Ascii.eqb c underscore = Ascii.eqb c' underscore)
    by (rewrite <- (lower_keeps_underscore c), <- (lower_keeps_underscore c');
        now rewrite Hc).
  destruct (Ascii.eqb c percent) eqn:Ec.
  - apply Ascii.eqb_eq in Ec. symmetry in Hpc. apply Ascii.eqb_eq in Hpc. subst c c'.
    induction s as [|d s IHs].
    + rewrite (like_percent p []), (like_percent p' []), (IH p' Hp). reflexivity.
    + rewrite (like_percent p (d :: s)), (like_percent p' (d :: s)), (IH p' Hp), IHs.
      reflexivity.
  - intros s. symmetry in Hpc.
    rewrite (like_not_percent c p s Ec), (like_not_percent c' p' s Hpc).
    destruct s as [|d s]; [reflexivity|].
    now rewrite Huc, Hc, (IH p' Hp).
Qed.

Lemma map_lower_app (a b a' b' : list ascii) :
  map lower a = map lower a' -> map lower b = map lower b' ->
  map lower (a ++ b) = map lower (a' ++ b').
Proof. intros Ha Hb. now rewrite !map_app, Ha, Hb. Qed.

(** X17: The search ignores the case of the query: two queries that differ in
    the case of ASCII letters only, wildcards or not, find the same items. *)
Theorem search_ignores_query_case (q q' : string) (d : DB.t) :
  same_up_to_case q q' ->
  search_items q d = search_items q' d.
Proof.
  unfold same_up_to_case, search_items. intros Hcase.
  apply filter_ext. intros i. unfold like.
  apply like_chars_case.
  change ("%" ++ q ++ "%") with (String percent (q ++ "%")).
  change ("%" ++ q' ++ "%") with (String percent (q' ++ "%")).
  cbn [list_ascii_of_string map]. f_equal.
  rewrite !list_ascii_of_string_app. now apply map_lower_app.
Qed.

Lemma search_ignores_query_case_witness :
  search_items "BAG" shop = search_items "bag" shop.
Proof.
  exact (search_ignores_query_case "BAG" "bag" shop eq_refl).
Defined.

(** ** Adding to the cart *)

Section Adding.
Context `{Outside}.

(** X18: [add_to_cart] checks the login itself: a caller who is not logged in
    is told to log in and redirected to the login page, and a logged-in
    caller whose form has no quantity gets a bad request; in both cases the
    cart method is not run, so nothing is written. *)
Theorem add_to_cart_guards (id : string) (quantity : option string) (d : DB.t)
    (sess : option Z) (t : Z) (f : option nat) :
  let w0 := request_world d sess t f in
  (logged_in sess d = None ->
     run (add_to_cart id quantity) w0
     = (Return (redirect "/login"),
        set_flashed
          [("You must login first!<br> <a href=/login>Login now!</a>", "error")] w0))
  /\ (forall u, logged_in sess d = Some u ->
        run (add_to_cart id None) w0 = (Return (abort 400), w0)).
Proof.
  intros w0. subst w0. split.
  - intros Hanon.
    unfold run, add_to_cart, is_authenticated, current_user, bind, request_world.
    cbn -[logged_in]. rewrite Hanon. reflexivity.
  - intros u Hu.
    unfold run, add_to_cart, is_authenticated, current_user, bind, request_world.
    cbn -[logged_in]. rewrite Hu. reflexivity.
Qed.

(** X19: [add_to_cart] looks the item up but adds before it uses it: for an id
    that names no item, the cart method is run all the same, and the
    handler then raises an AttributeError that nothing catches, leaving
    whatever the method did. *)
Theorem add_to_cart_unknown_item (id quantity : string) (d : DB.t)
    (sess : option Z) (u : User.t) (t : Z) (f : option nat) (w1 : World) :
  logged_in sess d = Some u ->
  match item_key id with Some k => DB.get_item k d | None => None end = None ->
  run (user_add_to_cart u id quantity) (request_world d sess t f) = (Return tt, w1) ->
  run (add_to_cart id (Some quantity)) (request_world d sess t f)
  = (Raise (AttributeError "'NoneType' object has no attribute 'name'"), w1).
Proof.
  intros Hu Hnone Hadd. unfold run in *.
  unfold add_to_cart, is_authenticated, current_user_add_to_cart, current_user,
    bind, request_world in *.
  cbn -[logged_in DB.get_item]. rewrite Hu.
  cbn -[logged_in DB.get_item]. rewrite Hu, Hnone, Hadd. reflexivity.
Qed.

(** X20: [resend] logs the user out: once the mailer has returned, the session
    is anonymous, with the rows as the mailer left them. *)
Theorem resend_logs_out (d : DB.t) (sess : option Z) (u : User.t) (t : Z)
    (f : option nat) (w1 : World) :
  logged_in sess d = Some u ->
  run (send_confirmation_email (User.email u)) (request_world d sess t f)
  = (Return tt, w1) ->
  let (r, w) := run resend (request_world d sess t f) in
  r = Return (redirect "/login")
  /\ session_uid w = None
  /\ persisted w = persisted w1
  /\ flashed w = (flashed w1 ++ [("Confirmation email sent successfully.", "success")])%list.
Proof.
  intros Hu Hsend. unfold resend.
  rewrite (login_required_logged_in resend_view _ u) by exact Hu.
  unfold run in *.
  unfold call, resend_view, current_user_email, current_user, bind, request_world in *.
  cbn -[logged_in]. rewrite Hu. cbn -[logged_in]. rewrite Hsend.
  cbn. repeat split.
Qed.
End Adding.

Lemma add_to_cart_guards_witness :
  let w0 := request_world shop None 1000 None in
  run (add_to_cart (H := test_outside) "1" (Some "2")) w0
  = (Return (redirect "/login"),
     set_flashed
       [("You must login first!<br> <a href=/login>Login now!</a>", "error")] w0)
  /\ run (add_to_cart (H := test_outside) "1" None) (request_world shop (Some 1) 1000 None)
     = (Return (abort 400), request_world shop (Some 1) 1000 None).
Proof.
  split.
  - exact (proj1 (add_to_cart_guards (H := test_outside) "1" (Some "2") shop None 1000 None)
                 eq_refl).
  - exact (proj2 (add_to_cart_guards (H := test_outside) "1" None shop (Some 1) 1000 None)
                 alice eq_refl).
Defined.

Lemma add_to_cart_unknown_item_witness :
  let w1 := snd (run (user_add_to_cart (Outside := test_outside) alice "99" "1")
                     (request_world shop (Some 1) 1000 None)) in
  run (add_to_cart (H := test_outside) "99" (Some "1")) (request_world shop (Some 1) 1000 None)
  = (Raise (AttributeError "'NoneType' object has no attribute 'name'"), w1)
  /\ List.length (DB.cart (persisted w1)) = S (List.length (DB.cart shop)).
Proof.
  split; [|reflexivity].
  exact (add_to_cart_unknown_item (H := test_outside) "99" "1" shop (Some 1) alice 1000
           None _ eq_refl eq_refl eq_refl).
Defined.

Lemma resend_logs_out_witness :
  let (r, w) := run (resend (H := test_outside)) (request_world shop (Some 1) 1000 None) in
  r = Return (redirect "/login")
  /\ session_uid w = None
  /\ persisted w = shop
  /\ flashed w = [("Confirmation email sent successfully.", "success")].
Proof.
  exact (resend_logs_out (H := test_outside) shop (Some 1) alice 1000 None
           (request_world shop (Some 1) 1000 None) eq_refl eq_refl).
Defined.

(** ** Invariants of the store *)

Lemma register_keeps_emails_unique_witness :
  emails_unique
    (persisted (snd (run (register (H := test_collaborators) POST
                            (mkRegisterForm "carol" "carol@example.com" "pw" "555-0102")
                            "salt")
                         (request_world shop None 1000 None)))).
Proof.
  refine (register_keeps_emails_unique (H := test_collaborators) POST
            (mkRegisterForm "carol" "carol@example.com" "pw" "555-0102") "salt"
            shop None 1000 _).
  unfold emails_unique. cbn. repeat constructor; cbn; intuition discriminate.
Defined.

(** The rows [place_order] can leave behind. *)
Lemma place_order_persisted_cases (d : DB.t) (sess : option Z) (t : Z) (f : option nat) :
  let d' := persisted (snd (run place_order (request_world d sess t f))) in
  d' = d
  \/ exists u, logged_in sess d = Some u
               /\ (d' = with_new_order d u t \/ d' = placed d u t).
Proof.
  cbv zeta.
  destruct (logged_in sess d) as [u|] eqn:Hu.
  - destruct (DB.cart_of (User.id u) d) as [|c rows] eqn:Hrows.
    + left. now rewrite (place_order_run_empty d sess u t f Hu Hrows).
    + assert (Hcart : DB.cart_of (User.id u) d <> []) by (rewrite Hrows; discriminate).
      destruct f as [k|].
      * destruct (Nat.lt_ge_cases k 2) as [Hearly | Hk2].
        { left. now rewrite (place_order_run_early_fault d sess u t k Hu Hcart Hearly). }
        destruct (Nat.lt_ge_cases k (2 * List.length (DB.cart_of (User.id u) d) + 3))
          as [Hmid | Hlate].
        { right. exists u. split; [reflexivity|]. left.
          now rewrite (place_order_run_transfer_fault d sess u t k Hu Hcart (conj Hk2 Hmid)). }
        right. exists u. split; [reflexivity|]. right.
        replace k with (2 * List.length (DB.cart_of (User.id u) d) + 3
                        + (k - (2 * List.length (DB.cart_of (User.id u) d) + 3)))%nat by lia.
        now rewrite (place_order_run_late_fault d sess u t _ Hu Hcart).
      * right. exists u. split; [reflexivity|]. right.
        now rewrite (place_order_run_ok d sess u t Hu Hcart).
  - left. unfold place_order.
    now rewrite (login_required_anonymous place_order_view [] (request_world d sess t f) Hu).
Qed.

Lemma refer_more_orders (lines : list Ordered_item.t) (os os' : list Order.t) :
  forallb (fun r => existsb (fun o => Order.id o =? Ordered_item.oid r) os) lines = true ->
  forallb (fun r => existsb (fun o => Order.id o =? Ordered_item.oid r) (os ++ os')) lines
  = true.
Proof.
  rewrite !forallb_forall. intros Hall r Hr. rewrite existsb_app.
  now rewrite (Hall r Hr).
Qed.

(** X3: [place_order] keeps the store consistent, whoever calls it and
    whatever write fails: if order keys are unique and every line item
    refers to an order before the request, the same holds of the rows the
    request leaves. *)
Theorem place_order_keeps_store_consistent (d : DB.t) (sess : option Z) (t : Z)
    (f : option nat) :
  NoDup (map Order.id (DB.orders d)) ->
  line_items_refer d = true ->
  let d' := persisted (snd (run place_order (request_world d sess t f))) in
  NoDup (map Order.id (DB.orders d')) /\ line_items_refer d' = true.
Proof.
  intros Hkeys Href. cbv zeta.
  assert (Hnew : forall u, NoDup (map Order.id (DB.orders d ++ [new_order_for d u t]))).
  { intros u. rewrite map_app. apply NoDup_app; [exact Hkeys | repeat constructor; intros [] |].
    intros k Hk [<- | []]. now apply (new_order_id_fresh d u t). }
  destruct (place_order_persisted_cases d sess t f) as [-> | (u & _ & [-> | ->])].
  - now split.
  - split; [apply Hnew|].
    unfold line_items_refer. cbn [with_new_order DB.with_orders DB.orders DB.ordered_items].
    now apply refer_more_orders.
  - unfold line_items_refer, placed. rewrite transfer_orders.
    split; [apply Hnew|].
    destruct (transfer_ordered_items (Order.id (new_order_for d u t))
                (DB.cart_of (User.id u) d) (with_new_order d u t))
      as (lines & Hlines & _ & Hoid).
    rewrite Hlines. cbn [with_new_order DB.with_orders DB.orders DB.ordered_items].
    rewrite forallb_app. apply andb_true_iff. split.
    + now apply refer_more_orders.
    + apply forallb_forall. intros r Hr. rewrite Forall_forall in Hoid.
      rewrite existsb_app. apply orb_true_iff. right. cbn [existsb].
      rewrite (Hoid r Hr), Z.eqb_refl. reflexivity.
Qed.

Lemma place_order_keeps_store_consistent_witness :
  let d' := persisted (snd (run place_order (request_world shop (Some 1) 1000 (Some 5%nat)))) in
  NoDup (map Order.id (DB.orders d')) /\ line_items_refer d' = true.
Proof.
  refine (place_order_keeps_store_consistent shop (Some 1) 1000 (Some 5%nat) _ eq_refl).
  cbn. constructor.
Defined.
